(** * praw.models.listing.generator: the ListingGenerator iterator

    A shallow embedding of [ListingGenerator] (src/praw/models/listing/generator.py)
    and the properties of its pagination protocol.

    The Python objects the generator touches are modelled by a small universe
    [pyobj]; the instance attributes by the record [ListingGenerator]; the
    dictionaries that are shared by reference (the caller's [params] and the
    generator's own copy) live in a store indexed by locations; the network
    collaborator [self._reddit.get] is a parameter of the development. *)

From stdpp Require Import gmap strings list fin_maps.

Set Warnings "-register-all".
Local Open Scope Z_scope.

(** ** Python values *)

(** Modelled from the spec: the Page abstraction (class [Listing] of
    praw/models/listing/listing.py, which is not part of the sources at hand):
    an ordered, indexable, length-queryable sequence of items and an [after]
    cursor that is a string or null. *)
Record Listing (A : Type) : Type := MkListing {
  children : list A;
  after : option string
}.
Arguments MkListing {A} _ _.
Arguments children {A} _.
Arguments after {A} _.

(** The objects a fetch may hand back and a listing may contain: [None],
    lists, dicts (with string keys, as decoded from JSON), pages (instances
    of [Listing] or of a subclass), and instances of any other class, which
    have no length, no items and no [after] attribute (a submission, a
    comment, ...). *)
Inductive pyobj : Type :=
| PyNone
| PyObject (name : string)
| PyList (elems : list pyobj)
| PyDict (entries : gmap string pyobj)
| PyListing (page : Listing pyobj).

(** Values of the query-string dictionary: [Union[str, int]]. *)
Inductive pval : Type :=
| PStr (s : string)
| PInt (z : Z).

#[global] Instance pval_eq_dec : EqDecision pval.
Proof. solve_decision. Defined.

(** Exceptions.  [Raised] stands for whatever the fetch collaborator raises
    that is none of the built-in classes below. *)
Inductive exn : Type :=
| StopIteration
| TypeError
| IndexError
| KeyError
| AttributeError
| Raised (cls : string).

Inductive result (A : Type) : Type :=
| Ok (a : A)
| Raise (e : exn).
Arguments Ok {A} _.
Arguments Raise {A} _.

(** ** The built-ins the generator relies on *)
Module Py.

(** [x is None] *)
Definition is_none (o : pyobj) : bool :=
  match o with PyNone => true | _ => false end.

(** [isinstance(x, list)] and [isinstance(x, dict)] *)
Definition is_list (o : pyobj) : bool :=
  match o with PyList _ => true | _ => false end.
Definition is_dict (o : pyobj) : bool :=
  match o with PyDict _ => true | _ => false end.

(** [len(x)]: lists, dicts and listings have a length. *)
Definition len (o : pyobj) : result Z :=
  match o with
  | PyList l => Ok (Z.of_nat (length l))
  | PyDict d => Ok (Z.of_nat (size d))
  | PyListing p => Ok (Z.of_nat (length (children p)))
  | PyNone | PyObject _ => Raise TypeError
  end.

(** [bool(x)]: [None] is false, containers are true when non-empty, a
    listing goes through its [__len__], any other instance is true. *)
Definition truthy (o : pyobj) : bool :=
  match o with
  | PyNone => false
  | PyObject _ => true
  | PyList l => negb (Z.of_nat (length l) =? 0)
  | PyDict d => negb (Z.of_nat (size d) =? 0)
  | PyListing p => negb (Z.of_nat (length (children p)) =? 0)
  end.

(** [l[i]] on a list, with Python's negative indices. *)
Definition index {A : Type} (l : list A) (i : Z) : result A :=
  let n := Z.of_nat (length l) in
  let j := if i <? 0 then i + n else i in
  if (j <? 0) || (n <=? j) then Raise IndexError
  else match l !! Z.to_nat j with
       | Some x => Ok x
       | None => Raise IndexError
       end.

(** [x[i]] for an integer [i]. *)
Definition getitem (o : pyobj) (i : Z) : result pyobj :=
  match o with
  | PyList l => index l i
  | PyListing p => index (children p) i
  | PyDict _ => Raise KeyError
  | PyNone | PyObject _ => Raise TypeError
  end.

(** [x.after] *)
Definition getattr_after (o : pyobj) : result (option string) :=
  match o with
  | PyListing p => Ok (after p)
  | _ => Raise AttributeError
  end.

(** [bool(a)] for a cursor: null and the empty string are false. *)
Definition truthy_cursor (a : option string) : bool :=
  match a with
  | Some s => negb (String.eqb s "")
  | None => false
  end.

(** [a != v] for a cursor [a] and the result [v] of [dict.get]. *)
Definition cursor_ne (a : option string) (v : option pval) : bool :=
  match a, v with
  | None, None => false
  | Some s, Some (PStr s') => negb (String.eqb s s')
  | _, _ => true
  end.

(** [limit or 1024] and friends: [x or d] for an optional integer. *)
Definition int_or (x : option Z) (d : Z) : Z :=
  match x with
  | Some n => if n =? 0 then d else n
  | None => d
  end.

End Py.

(** ** The store and the generator object *)

(** Locations of the dictionaries that are passed around by reference. *)
Abbreviation loc := positive.

(** The instance attributes assigned by [__init__]. *)
Record ListingGenerator : Type := MkGen {
  _exhausted : bool;
  _listing : pyobj;
  _list_index : option Z;
  limit : option Z;
  params : loc;
  url : string;
  yielded : Z
}.

Section Generator.

(** The fetch collaborator [self._reddit.get(url, params=...)]: one blocking
    call against some outside world [W]; it reads the dictionary it is
    given (it does not write to it) and either returns an object or raises. *)
Variable W : Type.
Variable fetch : W → string → gmap string pval → W * result pyobj.

(** [FlairListing(self._reddit, d)] of praw/models/listing/listing.py, which
    is not part of the sources at hand: the wrapper that presents a dict as
    a page. *)
Variable FlairListing : gmap string pyobj → Listing pyobj.

(** The whole program state: the generator, the dictionaries, the outside
    world, and (ghost) the log of fetch calls made so far. *)
Record State : Type := MkState {
  self : ListingGenerator;
  heap : gmap loc (gmap string pval);
  world : W;
  calls : list (string * gmap string pval)
}.

(** *** A state and exception monad *)

Definition M (A : Type) : Type := State → result A * State.

Definition ret {A : Type} (a : A) : M A := λ s, (Ok a, s).

Definition bind {A B : Type} (m : M A) (k : A → M B) : M B :=
  λ s, match m s with
       | (Ok a, s') => k a s'
       | (Raise e, s') => (Raise e, s')
       end.

Definition raise {A : Type} (e : exn) : M A := λ s, (Raise e, s).

Definition lift {A : Type} (r : result A) : M A := λ s, (r, s).

Definition get_self : M ListingGenerator := λ s, (Ok (self s), s).

Definition set_self (f : ListingGenerator → ListingGenerator) : M unit :=
  λ s, (Ok tt, MkState (f (self s)) (heap s) (world s) (calls s)).

Notation "'do' x <- m ; k" := (bind m (λ x, k))
  (at level 10, x name, m at level 100, k at level 200,
   format "'[v' 'do'  x  <-  m ; '/' k ']'").
Notation "m ;; k" := (bind m (λ _, k))
  (at level 100, k at level 200, right associativity).

(** Attribute assignments. *)
Definition set_exhausted (b : bool) : M unit :=
  set_self (λ g, MkGen b (_listing g) (_list_index g) (limit g)
                       (params g) (url g) (yielded g)).
Definition set_listing (o : pyobj) : M unit :=
  set_self (λ g, MkGen (_exhausted g) o (_list_index g) (limit g)
                       (params g) (url g) (yielded g)).
Definition set_list_index (i : option Z) : M unit :=
  set_self (λ g, MkGen (_exhausted g) (_listing g) i (limit g)
                       (params g) (url g) (yielded g)).
Definition set_yielded (n : Z) : M unit :=
  set_self (λ g, MkGen (_exhausted g) (_listing g) (_list_index g) (limit g)
                       (params g) (url g) n).

(** The dictionary behind a reference. *)
Definition deref (h : gmap loc (gmap string pval)) (l : loc) : gmap string pval :=
  default ∅ (h !! l).

(** [self.params.get(k)] *)
Definition params_get (k : string) : M (option pval) :=
  λ s, (Ok (deref (heap s) (params (self s)) !! k), s).

(** [self.params[k] = v]: an update in place of the shared dictionary. *)
Definition params_set (k : string) (v : pval) : M unit :=
  λ s, let l := params (self s) in
       (Ok tt, MkState (self s) (<[l := <[k := v]> (deref (heap s) l)]> (heap s))
                       (world s) (calls s)).

(** [self._reddit.get(self.url, params=self.params)] *)
Definition reddit_get : M pyobj :=
  λ s, let u := url (self s) in
       let d := deref (heap s) (params (self s)) in
       let '(w', r) := fetch (world s) u d in
       (r, MkState (self s) (heap s) w' (calls s ++ [(u, d)])).

(** An integer attribute that may still be [None], used as a number. *)
Definition as_int (i : option Z) : result Z :=
  match i with
  | Some n => Ok n
  | None => Raise TypeError
  end.

(** *** The methods *)

(** [ListingGenerator.__init__(reddit, url, limit, params)], run in a store
    [h] where the caller's [params] argument is [None] or a reference.  The
    values of the dictionary are strings and integers, so the deep copy is a
    new dictionary with the same entries; the new object gets a location
    that is not in use. *)
Definition __init__ (h : gmap loc (gmap string pval)) (w : W)
    (url0 : string) (limit0 : option Z) (params0 : option loc) : State :=
  let copy :=                       (* deepcopy(params) if params else {} *)
    match params0 with
    | Some l => let d := deref h l in
                if negb (Z.of_nat (size d) =? 0) then d else ∅
    | None => ∅
    end in
  let l' := fresh (dom h) in
  MkState (MkGen false PyNone None limit0 l' url0 0)
          (<[l' := <["limit" := PInt (Py.int_or limit0 1024)]> copy]> h)
          w [].

(** [ListingGenerator._next_batch] *)
Definition _next_batch : M unit :=
  do g <- get_self;
  if _exhausted g then raise StopIteration else
  do r <- reddit_get;
  set_listing r ;;
  match r with
  | PyList l =>                                  (* for submission duplicates *)
      do p <- lift (Py.index l 1);
      set_listing p
  | PyDict d => set_listing (PyListing (FlairListing d))
  | _ => ret tt
  end ;;
  set_list_index (Some 0) ;;
  do g <- get_self;
  if negb (Py.truthy (_listing g)) then raise StopIteration else
  do a <- lift (Py.getattr_after (_listing g));
  do old <- params_get "after";
  if Py.truthy_cursor a && Py.cursor_ne a old
  then params_set "after" (PStr (default "" a))   (* [a] is a string here *)
  else set_exhausted true.

(** [self.limit is not None and self.yielded >= self.limit] *)
Definition limit_reached (g : ListingGenerator) : bool :=
  match limit g with
  | Some n => n <=? yielded g
  | None => false
  end.

(** [self._listing is None or self._list_index >= len(self._listing)] *)
Definition needs_batch (g : ListingGenerator) : result bool :=
  if Py.is_none (_listing g) then Ok true
  else match as_int (_list_index g), Py.len (_listing g) with
       | Ok i, Ok n => Ok (n <=? i)
       | _, _ => Raise TypeError
       end.

(** [ListingGenerator.__next__] *)
Definition __next__ : M pyobj :=
  do g <- get_self;
  if limit_reached g then raise StopIteration else
  do refill <- lift (needs_batch g);
  (if refill then _next_batch else ret tt) ;;
  do g <- get_self;
  do i <- lift (as_int (_list_index g));
  set_list_index (Some (i + 1)) ;;
  set_yielded (yielded g + 1) ;;
  do g <- get_self;
  do i <- lift (as_int (_list_index g));
  lift (Py.getitem (_listing g) (i - 1)).

(** *** The caller *)

(** [n] successive calls of [next(gen)], each outcome recorded; an
    exception is caught by the caller and the pulling goes on. *)
Fixpoint pulls (n : nat) (s : State) : list (result pyobj) * State :=
  match n with
  | O => ([], s)
  | S k => let '(r, s1) := __next__ s in
           let '(rs, s2) := pulls k s1 in
           (r :: rs, s2)
  end.

(** The items among the outcomes. *)
Fixpoint items (rs : list (result pyobj)) : list pyobj :=
  match rs with
  | [] => []
  | Ok x :: rs' => x :: items rs'
  | Raise _ :: rs' => items rs'
  end.

(** What a response becomes once lines 74-77 have looked at its shape. *)
Definition effective_page (r : pyobj) : result pyobj :=
  match r with
  | PyList l => Py.index l 1
  | PyDict d => Ok (PyListing (FlairListing d))
  | _ => Ok r
  end.

(** The responses the collaborator is meant to give: a page, a dict (which
    the flair wrapper turns into a page), or a list with a page at index 1. *)
Definition well_shaped (r : pyobj) : bool :=
  match r with
  | PyListing _ | PyDict _ => true
  | PyList l => match l !! 1%nat with
                | Some (PyListing _) => true
                | _ => false
                end
  | PyNone | PyObject _ => false
  end.

(** The index points into the current page, or just past its end. *)
Definition index_within (g : ListingGenerator) : Prop :=
  _listing g = PyNone ∨
  ∃ i n, _list_index g = Some i ∧ Py.len (_listing g) = Ok n ∧ 0 ≤ i ≤ n.

(** The index is a valid position of the current page. *)
Definition index_valid (g : ListingGenerator) : Prop :=
  _listing g = PyNone ∨
  ∃ i n, _list_index g = Some i ∧ Py.len (_listing g) = Ok n ∧ 0 ≤ i < n.

(** *** The iterator protocol *)

(** [ListingGenerator.__iter__]: [return self].  The iterator is the
    generator itself: no object is created and no attribute is touched. *)
Definition __iter__ : M unit := ret tt.

(** The loop of [list(gen)] and of a [for] statement, once it holds the
    iterator: [next] again and again; [StopIteration] ends the loop, any
    other exception leaves it and is raised to the caller.  The loop need
    not end, hence the fuel: [None] when it runs out first. *)
Fixpoint drain (fuel : nat) (s : State) : option (result (list pyobj) * State) :=
  match fuel with
  | O => None
  | S k =>
      match __next__ s with
      | (Ok x, s1) =>
          match drain k s1 with
          | Some (Ok xs, s2) => Some (Ok (x :: xs), s2)
          | other => other
          end
      | (Raise StopIteration, s1) => Some (Ok [], s1)
      | (Raise e, s1) => Some (Raise e, s1)
      end
  end.

(** [list(gen)]: [iter(gen)], then the loop. *)
Definition py_list (fuel : nat) (s : State) : option (result (list pyobj) * State) :=
  match __iter__ s with
  | (Ok _, s1) => drain fuel s1
  | (Raise e, s1) => Some (Raise e, s1)
  end.

(** The test of line 83: the cursor is true and is not the stored one. *)
Definition advances (a : option string) (old : option pval) : bool :=
  Py.truthy_cursor a && Py.cursor_ne a old.

(** The current page, if any, is a page object, and the index is a position
    of it or the position past its end. *)
Definition on_page (g : ListingGenerator) : Prop :=
  _listing g = PyNone ∨
  ∃ page i, _listing g = PyListing page ∧ _list_index g = Some i ∧
            0 ≤ i ≤ Z.of_nat (length (children page)).

End Generator.

Arguments State W : clear implicits.
Arguments self {W} _.
Arguments heap {W} _.
Arguments world {W} _.
Arguments calls {W} _.
Arguments MkState {W} _ _ _ _.
Arguments __init__ {W} _ _ _ _ _.
Arguments _next_batch {W} _ _ _.
Arguments __next__ {W} _ _ _.
Arguments pulls {W} _ _ _ _.
Arguments __iter__ {W} _.
Arguments drain {W} _ _ _ _.
Arguments py_list {W} _ _ _ _.
Arguments reddit_get {W} _ _.
Arguments params_get {W} _ _.
Arguments params_set {W} _ _ _.

(** ** A scripted fetch collaborator, for running the code on examples *)
Module Script.

(** The world is the list of outcomes the server will give, in order; once
    the script is over every call fails. *)
Definition fetch (w : list (result pyobj)) (_ : string) (_ : gmap string pval)
    : list (result pyobj) * result pyobj :=
  match w with
  | r :: w' => (w', r)
  | [] => ([], Raise (Raised "ConnectionError"))
  end.

(** An instance of the flair wrapper: the items are the "users" entry. *)
Definition flair (d : gmap string pyobj) : Listing pyobj :=
  match d !! "users" with
  | Some (PyList l) => MkListing l None
  | _ => MkListing [] None
  end.

(** A page of opaque items. *)
Definition page (names : list string) (a : option string) : pyobj :=
  PyListing (MkListing (PyObject <$> names) a).

(** A server that only ever answers with bare pages. *)
Definition fetch_pages (w : list (Listing pyobj)) (_ : string)
    (_ : gmap string pval) : list (Listing pyobj) * result pyobj :=
  match w with
  | p :: w' => (w', Ok (PyListing p))
  | [] => ([], Raise (Raised "ConnectionError"))
  end.


End Script.

Section Properties.

Context {W : Type}.
Variable fetch : W → string → gmap string pval → W * result pyobj.
Variable FlairListing : gmap string pyobj → Listing pyobj.

Local Abbreviation next_batch := (_next_batch fetch FlairListing).
Local Abbreviation next := (__next__ fetch FlairListing).
Local Abbreviation pull := (pulls fetch FlairListing).
Local Abbreviation effective := (effective_page FlairListing).

Ltac unfold_monad :=
  unfold __next__, _next_batch, bind, ret, raise, lift, get_self,
    set_listing, set_list_index, set_exhausted, set_yielded, set_self,
    params_get, params_set, reddit_get in *.

Lemma next_batch_exhausted (s : State W) :
  _exhausted (self s) = true → next_batch s = (Raise StopIteration, s).
Proof. intros H. unfold_monad. simpl. by rewrite H. Qed.

Lemma next_limit_reached (s : State W) :
  limit_reached (self s) = true → next s = (Raise StopIteration, s).
Proof. intros H. unfold_monad. simpl. by rewrite H. Qed.

Lemma next_batch_frame (s s' : State W) r :
  next_batch s = (r, s') →
  limit (self s') = limit (self s) ∧ params (self s') = params (self s) ∧
  url (self s') = url (self s) ∧ yielded (self s') = yielded (self s) ∧
  (_exhausted (self s) = true → _exhausted (self s') = true) ∧
  (∀ l, l ≠ params (self s) → heap s' !! l = heap s !! l).
Proof.
  unfold_monad. simpl. intros H.
  repeat (case_match; simplify_eq/=); repeat split; auto; try done.
  all: intros l Hl; by rewrite lookup_insert_ne.
Qed.

(** The state right after the fetch call of a refill. *)
Local Abbreviation sent s := (url (self s), deref (heap s) (params (self s))).
Local Abbreviation fetched s w := (MkState (self s) (heap s) w (calls s ++ [sent s])).
Local Abbreviation with_page g o :=
  (MkGen (_exhausted g) o (Some 0) (limit g) (params g) (url g) (yielded g)).

Lemma next_batch_fetch_raises (s : State W) w e :
  _exhausted (self s) = false →
  fetch (world s) (url (self s)) (deref (heap s) (params (self s))) = (w, Raise e) →
  next_batch s = (Raise e, fetched s w).
Proof. intros Hx Hf. unfold_monad. simpl. by rewrite Hx, Hf. Qed.

Lemma next_batch_bad_list (s : State W) w l e :
  _exhausted (self s) = false →
  fetch (world s) (url (self s)) (deref (heap s) (params (self s))) = (w, Ok (PyList l)) →
  Py.index l 1 = Raise e →
  next_batch s =
    (Raise e,
     MkState (MkGen false (PyList l) (_list_index (self s)) (limit (self s))
                    (params (self s)) (url (self s)) (yielded (self s)))
             (heap s) w (calls s ++ [sent s])).
Proof.
  intros Hx Hf Hi. unfold_monad. simpl. rewrite Hx, Hf. simpl.
  by rewrite Hi, Hx.
Qed.

Lemma next_batch_fetched (s : State W) w r o :
  _exhausted (self s) = false →
  fetch (world s) (url (self s)) (deref (heap s) (params (self s))) = (w, Ok r) →
  effective r = Ok o →
  next_batch s =
    let g := with_page (self s) o in
    let d := deref (heap s) (params g) in
    if negb (Py.truthy o) then
      (Raise StopIteration, MkState g (heap s) w (calls s ++ [sent s]))
    else match Py.getattr_after o with
         | Raise e => (Raise e, MkState g (heap s) w (calls s ++ [sent s]))
         | Ok a =>
             if Py.truthy_cursor a && Py.cursor_ne a (d !! "after") then
               (Ok tt, MkState g (<[params g := <["after" := PStr (default "" a)]> d]> (heap s))
                               w (calls s ++ [sent s]))
             else
               (Ok tt, MkState (MkGen true o (Some 0) (limit g) (params g) (url g) (yielded g))
                               (heap s) w (calls s ++ [sent s]))
         end.
Proof.
  intros Hx Hf He. unfold_monad. simpl. rewrite Hx, Hf. simpl.
  destruct r; simpl in He; simplify_eq/=; try rewrite He; simpl;
    repeat (case_match; simplify_eq/=); try done.
  all: by rewrite Hx.
Qed.

(** [__next__] when the buffered page still has the item. *)
Lemma next_buffered (s : State W) i :
  limit_reached (self s) = false →
  needs_batch (self s) = Ok false →
  _list_index (self s) = Some i →
  next s =
    (Py.getitem (_listing (self s)) i,
     MkState (MkGen (_exhausted (self s)) (_listing (self s)) (Some (i + 1))
                    (limit (self s)) (params (self s)) (url (self s))
                    (yielded (self s) + 1))
             (heap s) (world s) (calls s)).
Proof.
  intros Hl Hn Hi. unfold_monad. simpl. rewrite Hl, Hn. simpl.
  rewrite Hi. simpl. by replace (i + 1 - 1) with i by lia.
Qed.

(** [__next__] when a refill is needed. *)
Lemma next_refill (s : State W) :
  limit_reached (self s) = false →
  needs_batch (self s) = Ok true →
  next s =
    match next_batch s with
    | (Raise e, s1) => (Raise e, s1)
    | (Ok _, s1) =>
        match _list_index (self s1) with
        | None => (Raise TypeError, s1)
        | Some i =>
            (Py.getitem (_listing (self s1)) i,
             MkState (MkGen (_exhausted (self s1)) (_listing (self s1)) (Some (i + 1))
                            (limit (self s1)) (params (self s1)) (url (self s1))
                            (yielded (self s1) + 1))
                     (heap s1) (world s1) (calls s1))
        end
    end.
Proof.
  intros Hl Hn. unfold __next__ at 1. unfold bind at 1. unfold get_self at 1.
  rewrite Hl. unfold bind at 1. unfold lift at 1. rewrite Hn.
  unfold bind at 1. destruct (next_batch s) as [[[]|e] s1]; [|done].
  unfold_monad. simpl. destruct (_list_index (self s1)) as [i|]; [|done].
  simpl. by replace (i + 1 - 1) with i by lia.
Qed.

(** A pull that cannot tell whether a refill is needed raises [TypeError]
    and changes nothing. *)
Lemma next_type_error (s : State W) e :
  limit_reached (self s) = false →
  needs_batch (self s) = Raise e →
  next s = (Raise e, s).
Proof. intros Hl Hn. unfold_monad. simpl. by rewrite Hl, Hn. Qed.

(** What a pull never touches, and how far it moves the counters. *)
Lemma next_frame (s s' : State W) r :
  next s = (r, s') →
  limit (self s') = limit (self s) ∧ params (self s') = params (self s) ∧
  url (self s') = url (self s) ∧
  (_exhausted (self s) = true → _exhausted (self s') = true) ∧
  (∀ l, l ≠ params (self s) → heap s' !! l = heap s !! l) ∧
  ((yielded (self s') = yielded (self s) ∧ ∃ e, r = Raise e) ∨
   (yielded (self s') = yielded (self s) + 1 ∧ limit_reached (self s) = false)).
Proof.
  intros H.
  destruct (limit_reached (self s)) eqn:Hl.
  { rewrite next_limit_reached in H by done. simplify_eq. naive_solver. }
  destruct (needs_batch (self s)) as [[]|e] eqn:Hn.
  - rewrite next_refill in H by done.
    destruct (next_batch s) as [[[]|e] s1] eqn:Hb;
      apply next_batch_frame in Hb as (H1 & H2 & H3 & H4 & H5 & H6).
    + destruct (_list_index (self s1)); simplify_eq/=.
      * repeat split; auto. right. split; [lia|done].
      * repeat split; auto. left. eauto.
    + simplify_eq. repeat split; auto. left. eauto.
  - destruct (_list_index (self s)) as [i|] eqn:Hi.
    + rewrite (next_buffered s i) in H by done. simplify_eq/=.
      repeat split; auto.
    + unfold needs_batch in Hn. rewrite Hi in Hn.
      repeat (case_match; simplify_eq/=).
  - rewrite (next_type_error s e) in H by done. simplify_eq. naive_solver.
Qed.

Lemma pull_S (n : nat) (s : State W) :
  pull (S n) s = ((next s).1 :: (pull n (next s).2).1, (pull n (next s).2).2).
Proof.
  simpl. destruct (next s) as [r s1]. simpl.
  by destruct (pull n s1) as [rs s2].
Qed.

Lemma index_nat {A : Type} (l : list A) (i : nat) x :
  l !! i = Some x → Py.index l (Z.of_nat i) = Ok x.
Proof.
  intros Hx. pose proof (lookup_lt_Some _ _ _ Hx) as Hlt. unfold Py.index.
  destruct (Z.ltb_spec (Z.of_nat i) 0) as [?|_]; [lia|].
  destruct (Z.ltb_spec (Z.of_nat i) 0) as [?|_]; [lia|].
  destruct (Z.leb_spec (Z.of_nat (length l)) (Z.of_nat i)) as [?|_]; [lia|].
  simpl. by rewrite Nat2Z.id, Hx.
Qed.

(** Pulling [n] items that are all buffered in the current page. *)
Lemma pull_buffered (n : nat) : ∀ (s : State W) page (i : nat),
  _listing (self s) = PyListing page →
  _list_index (self s) = Some (Z.of_nat i) →
  (i + n ≤ length (children page))%nat →
  (∀ N, limit (self s) = Some N → yielded (self s) + Z.of_nat n ≤ N) →
  pull n s =
    (Ok <$> take n (drop i (children page)),
     MkState (MkGen (_exhausted (self s)) (PyListing page) (Some (Z.of_nat (i + n)))
                    (limit (self s)) (params (self s)) (url (self s))
                    (yielded (self s) + Z.of_nat n))
             (heap s) (world s) (calls s)).
Proof.
  induction n as [|n IH]; intros s page i Hp Hi Hlen Hlim.
  - simpl. destruct s as [[] ? ? ?]. simpl in *. subst.
    do 4 f_equal; [f_equal; lia | lia].
  - rewrite pull_S.
    assert (limit_reached (self s) = false) as Hl.
    { unfold limit_reached. destruct (limit (self s)) as [N|] eqn:HN; [|done].
      specialize (Hlim N eq_refl). apply Z.leb_gt. lia. }
    assert (needs_batch (self s) = Ok false) as Hn.
    { unfold needs_batch. rewrite Hp, Hi. simpl. f_equal. apply Z.leb_gt. lia. }
    rewrite (next_buffered s (Z.of_nat i)) by done. cbn [fst snd].
    rewrite (IH _ page (S i)); cbn [self _listing _list_index limit yielded
      _exhausted params url heap world calls]; try done.
    + rewrite Hp. simpl.
      destruct (lookup_lt_is_Some_2 (children page) i) as [x Hx]; [lia|].
      rewrite (index_nat _ _ x) by done.
      rewrite (drop_S _ x i) by done. simpl.
      replace (S (i + n)) with (i + S n)%nat by lia.
      replace (yielded (self s) + 1 + Z.of_nat n)
        with (yielded (self s) + Z.of_nat (S n)) by lia.
      done.
    + f_equal. lia.
    + lia.
    + intros N HN. specialize (Hlim N HN). lia.
Qed.

(** ** Limit enforcement *)

Lemma pull_within_limit (N : Z) (n : nat) : ∀ s : State W,
  limit (self s) = Some N →
  yielded (self s) ≤ N →
  limit (self (pull n s).2) = Some N ∧
  yielded (self s) ≤ yielded (self (pull n s).2) ≤ N ∧
  Z.of_nat (length (items (pull n s).1))
    ≤ yielded (self (pull n s).2) - yielded (self s).
Proof.
  induction n as [|n IH]; intros s HN Hy.
  - simpl. repeat split; auto; lia.
  - rewrite pull_S. cbn [fst snd].
    destruct (next s) as [r s1] eqn:Hs. cbn [fst snd].
    apply next_frame in Hs as (H1 & _ & _ & _ & _ & Hcnt).
    assert (yielded (self s1) ≤ N ∧ yielded (self s) ≤ yielded (self s1) ∧
            Z.of_nat (length (items [r])) ≤ yielded (self s1) - yielded (self s))
      as (Hy1 & Hmono & Hone).
    { destruct Hcnt as [[-> [e ->]]|[-> Hl]]; simpl; [lia|].
      unfold limit_reached in Hl. rewrite HN in Hl. apply Z.leb_gt in Hl.
      destruct r; simpl; lia. }
    destruct (IH s1) as (IH1 & IH2 & IH3); [congruence|done|].
    split; [done|]. split; [lia|].
    destruct r; simpl in *; lia.
Qed.

(** C1. A generator built with a limit [N] (a count, so [0 <= N]) keeps
    [0 <= yielded <= N] at every point of every run of pulls and hands out
    at most [N] items.  Whenever [yielded >= N], and so once [N] items have
    been handed out (at the (N+1)-th pull when the first [N] all gave an
    item), the pull raises [StopIteration] and leaves the whole state as it
    was: the log of fetch calls and the outside world included, so no fetch
    is made. *)
Theorem limit_enforcement (h : gmap loc (gmap string pval)) (w : W)
    (u : string) (N : Z) (p : option loc) (n : nat) :
  0 ≤ N →
  0 ≤ yielded (self (pull n (__init__ h w u (Some N) p)).2) ≤ N ∧
  Z.of_nat (length (items (pull n (__init__ h w u (Some N) p)).1)) ≤ N ∧
  (N ≤ yielded (self (pull n (__init__ h w u (Some N) p)).2) →
   next (pull n (__init__ h w u (Some N) p)).2
     = (Raise StopIteration, (pull n (__init__ h w u (Some N) p)).2)) ∧
  (Z.of_nat (length (items (pull n (__init__ h w u (Some N) p)).1)) = N →
   next (pull n (__init__ h w u (Some N) p)).2
     = (Raise StopIteration, (pull n (__init__ h w u (Some N) p)).2)).
Proof.
  intros HN.
  destruct (pull_within_limit N n (__init__ h w u (Some N) p))
    as (Hlim & Hy & Hit); [done|simpl; lia|].
  simpl in Hy, Hit.
  assert (N ≤ yielded (self (pull n (__init__ h w u (Some N) p)).2) →
          next (pull n (__init__ h w u (Some N) p)).2
            = (Raise StopIteration, (pull n (__init__ h w u (Some N) p)).2)) as Hstop.
  { intros Hfull. apply next_limit_reached. unfold limit_reached.
    rewrite Hlim. by apply Z.leb_le. }
  repeat split; try lia; [done|].
  intros Hfull. apply Hstop. lia.
Qed.

(** ** Cursor advancement *)

Lemma effective_raises r e :
  effective r = Raise e → ∃ l, r = PyList l ∧ Py.index l 1 = Raise e.
Proof. destruct r; simpl; intros; simplify_eq; eauto. Qed.

(** Every way a refill can go, in one statement. *)
Lemma next_batch_inv (s s' : State W) res :
  next_batch s = (res, s') →
  (_exhausted (self s) = true ∧ res = Raise StopIteration ∧ s' = s) ∨
  (_exhausted (self s) = false ∧
   ∃ w r, fetch (world s) (url (self s)) (deref (heap s) (params (self s))) = (w, r) ∧
     ((∃ e, r = Raise e ∧ res = Raise e ∧ s' = fetched s w) ∨
      (∃ l e, r = Ok (PyList l) ∧ Py.index l 1 = Raise e ∧ res = Raise e ∧
         self s' = MkGen false (PyList l) (_list_index (self s)) (limit (self s))
                         (params (self s)) (url (self s)) (yielded (self s)) ∧
         heap s' = heap s ∧ calls s' = calls s ++ [sent s]) ∨
      (∃ r0 o, r = Ok r0 ∧ effective r0 = Ok o ∧
         _listing (self s') = o ∧ _list_index (self s') = Some 0 ∧
         calls s' = calls s ++ [sent s] ∧
         (∀ u, res = Ok u → ∃ page, o = PyListing page ∧ children page ≠ [])))).
Proof.
  intros H. destruct (_exhausted (self s)) eqn:Hx.
  { rewrite next_batch_exhausted in H by done. simplify_eq. by left. }
  right. split; [done|].
  destruct (fetch (world s) (url (self s)) (deref (heap s) (params (self s))))
    as [w r] eqn:Hf.
  exists w, r. split; [done|]. destruct r as [r0|e].
  - destruct (effective r0) as [o|e] eqn:He.
    + right. right. exists r0, o. split; [done|]. split; [done|].
      rewrite (next_batch_fetched s w r0 o) in H by done. cbv zeta in H.
      destruct (Py.truthy o) eqn:Ht; simpl in H; [|by simplify_eq/=].
      destruct o as [|?|?|?|page]; simpl in H; simplify_eq/=; try done.
      assert (children page ≠ []) by by destruct (children page).
      destruct (_ && _); simplify_eq/=; eauto 10.
    + apply effective_raises in He as (l & -> & Hi).
      rewrite (next_batch_bad_list s w l e) in H by done. simplify_eq/=.
      right. left. by exists l, e.
  - rewrite (next_batch_fetch_raises s w e) in H by done. simplify_eq.
    left. by exists e.
Qed.

(** A refill completes only on a fetched response whose page is a non-empty
    page object. *)
Lemma successful_refill_fetched (s s' : State W) :
  next_batch s = (Ok tt, s') →
  _exhausted (self s) = false ∧
  ∃ w r page,
    fetch (world s) (url (self s)) (deref (heap s) (params (self s))) = (w, Ok r) ∧
    effective r = Ok (PyListing page) ∧ children page ≠ [].
Proof.
  intros H.
  destruct (next_batch_inv _ _ _ H) as [(_ & ? & _)|(Hx & w & r & Hf & Hc)];
    [done|].
  destruct Hc as [(e & _ & ? & _)|[(l & e & _ & _ & ? & _)|Hc]]; [done..|].
  destruct Hc as (r0 & o & -> & He & _ & _ & _ & Hok).
  destruct (Hok tt eq_refl) as (page & -> & Hne).
  split; [done|]. by exists w, r0, page.
Qed.

(** C2. A refill that fetches a response [r] whose page (the response
    itself, element 1 of a list, or the wrapped dict) is the non-empty page
    [page] completes, and these are the only refills that complete (lemma
    above).  The current page is then [page], positioned at its first item.
    When the cursor of [page] is non-empty and differs from
    [params.get("after")], it is written to [params["after"]] and the
    generator is not exhausted; in every other case (null, empty, or equal
    to the stored cursor) the generator is marked exhausted and the
    dictionary is untouched.  Either way the items of [page] are handed out
    by the following pulls. *)
Theorem cursor_advancement (s : State W) w r page :
  _exhausted (self s) = false →
  fetch (world s) (url (self s)) (deref (heap s) (params (self s))) = (w, Ok r) →
  effective r = Ok (PyListing page) →
  children page ≠ [] →
  (next_batch s).1 = Ok tt ∧
  _listing (self (next_batch s).2) = PyListing page ∧
  _list_index (self (next_batch s).2) = Some 0 ∧
  (∀ c, after page = Some c → c ≠ "" →
        deref (heap s) (params (self s)) !! "after" ≠ Some (PStr c) →
        heap (next_batch s).2
          = <[params (self s) := <["after" := PStr c]>
                (deref (heap s) (params (self s)))]> (heap s) ∧
        deref (heap (next_batch s).2) (params (self (next_batch s).2)) !! "after"
          = Some (PStr c) ∧
        _exhausted (self (next_batch s).2) = false) ∧
  ((after page = None ∨ after page = Some "" ∨
    deref (heap s) (params (self s)) !! "after" = PStr <$> after page) →
   heap (next_batch s).2 = heap s ∧ _exhausted (self (next_batch s).2) = true) ∧
  (∀ n : nat, (n ≤ length (children page))%nat →
     (∀ N, limit (self (next_batch s).2) = Some N →
           yielded (self (next_batch s).2) + Z.of_nat n ≤ N) →
     (pull n (next_batch s).2).1 = Ok <$> take n (children page)).
Proof.
  intros Hx Hf He Hne.
  pose proof (next_batch_fetched s w r (PyListing page) Hx Hf He) as H.
  cbv zeta in H.
  assert (Py.truthy (PyListing page) = true) as Ht
    by (simpl; by destruct (children page)).
  rewrite Ht in H. cbn [negb Py.getattr_after] in H.
  assert (∀ c, after page = Some c → c ≠ "" →
            deref (heap s) (params (self s)) !! "after" ≠ Some (PStr c) →
            Py.truthy_cursor (after page)
            && Py.cursor_ne (after page)
                 (deref (heap s) (params (self s)) !! "after") = true) as Hyes.
  { intros c -> Hc Hold. apply andb_true_iff. split.
    - simpl. by apply negb_true_iff, String.eqb_neq.
    - destruct (deref (heap s) (params (self s)) !! "after") as [[c'|z]|];
        simpl; try done.
      apply negb_true_iff, String.eqb_neq. congruence. }
  assert ((after page = None ∨ after page = Some "" ∨
           deref (heap s) (params (self s)) !! "after" = PStr <$> after page) →
          Py.truthy_cursor (after page)
          && Py.cursor_ne (after page)
               (deref (heap s) (params (self s)) !! "after") = false) as Hno.
  { intros [Ha | [Ha | Hold]]; [by rewrite Ha..|].
    rewrite Hold. destruct (after page) as [c|]; [|done]. simpl.
    rewrite String.eqb_refl. simpl. apply andb_false_r. }
  destruct (Py.truthy_cursor (after page) && Py.cursor_ne (after page) _) eqn:Hb;
    rewrite H; cbn [fst snd self heap _listing _list_index _exhausted params].
  - split; [done|]. split; [done|]. split; [done|]. split; [|split].
    + intros c Hc Hcne Hold. rewrite Hc. cbn [default].
      split; [done|]. split; [|done].
      unfold deref. by rewrite lookup_insert_eq; simpl; rewrite lookup_insert_eq.
    + intros Hcase. specialize (Hno Hcase). congruence.
    + intros n Hn Hlim.
      rewrite (pull_buffered n _ page 0); [by rewrite drop_0|done..].
  - split; [done|]. split; [done|]. split; [done|]. split; [|split].
    + intros c Hc Hcne Hold. specialize (Hyes c Hc Hcne Hold). congruence.
    + done.
    + intros n Hn Hlim.
      rewrite (pull_buffered n _ page 0); [by rewrite drop_0|done..].
Qed.

(** ** Exhaustion *)

Lemma pull_exhausted (n : nat) : ∀ s : State W,
  _exhausted (self s) = true →
  _exhausted (self (pull n s).2) = true ∧
  calls (pull n s).2 = calls s ∧ world (pull n s).2 = world s.
Proof.
  induction n as [|n IH]; intros s Hx; [done|].
  rewrite pull_S. cbn [fst snd].
  assert (_exhausted (self (next s).2) = true ∧
          calls (next s).2 = calls s ∧ world (next s).2 = world s)
    as (Hx1 & Hc1 & Hw1).
  { destruct (limit_reached (self s)) eqn:Hl.
    { by rewrite next_limit_reached. }
    destruct (needs_batch (self s)) as [[]|e] eqn:Hn.
    - rewrite next_refill, next_batch_exhausted by done. done.
    - destruct (_list_index (self s)) as [i|] eqn:Hi.
      + by rewrite (next_buffered s i).
      + unfold needs_batch in Hn. rewrite Hi in Hn.
        repeat (case_match; simplify_eq/=).
    - by rewrite (next_type_error s e). }
  destruct (IH _ Hx1) as (? & ? & ?). split; [done|]. split; congruence.
Qed.

(** C4. Once [_exhausted] is set it stays set whatever is pulled
    afterwards, a refill attempted in such a state raises [StopIteration]
    and leaves the state as it was, and no fetch is ever made again. *)
Theorem exhaustion_absorbing (s : State W) (n : nat) :
  _exhausted (self s) = true →
  _exhausted (self (pull n s).2) = true ∧
  next_batch (pull n s).2 = (Raise StopIteration, (pull n s).2) ∧
  calls (pull n s).2 = calls s ∧
  world (pull n s).2 = world s.
Proof.
  intros Hx. destruct (pull_exhausted n s Hx) as (H1 & H2 & H3).
  split; [done|]. split; [|done]. by apply next_batch_exhausted.
Qed.

(** ** Failure of the fetch *)

(** C5. If the pull made a fetch call (the log grew) and that call raised
    [e], then the pull raises [e] and every attribute of the generator
    ([_listing], [_list_index], [_exhausted], [yielded], ...) and every
    dictionary, its [params] among them, is exactly as before: the same
    pull can be tried again. *)
Theorem fetch_failure_atomic (s s' : State W) res w e :
  fetch (world s) (url (self s)) (deref (heap s) (params (self s))) = (w, Raise e) →
  next s = (res, s') →
  calls s' ≠ calls s →
  res = Raise e ∧ self s' = self s ∧ heap s' = heap s ∧
  calls s' = calls s ++ [(url (self s), deref (heap s) (params (self s)))].
Proof.
  intros Hf H Hcalls.
  destruct (limit_reached (self s)) eqn:Hl.
  { rewrite next_limit_reached in H by done. by simplify_eq. }
  destruct (needs_batch (self s)) as [[]|e'] eqn:Hn.
  - rewrite next_refill in H by done.
    destruct (_exhausted (self s)) eqn:Hx.
    + rewrite next_batch_exhausted in H by done. by simplify_eq.
    + rewrite (next_batch_fetch_raises s w e) in H by done. by simplify_eq.
  - destruct (_list_index (self s)) as [i|] eqn:Hi.
    + rewrite (next_buffered s i) in H by done. by simplify_eq.
    + unfold needs_batch in Hn. rewrite Hi in Hn.
      repeat (case_match; simplify_eq/=).
  - rewrite (next_type_error s e') in H by done. by simplify_eq.
Qed.

(** ** The shapes of a response *)

(** C6 (as amended). A response that is neither a list nor a dict is not
    rejected: the refill takes it as the current page as it is and puts the
    index at 0.  The refill then completes when the object is a non-empty
    page, raises [StopIteration] when the object is false (an empty page,
    [None]), and fails with [AttributeError] on an object without a cursor;
    there is no error of its own for an unknown shape. *)
Theorem unrecognised_shape_taken_as_page (s : State W) w r :
  _exhausted (self s) = false →
  fetch (world s) (url (self s)) (deref (heap s) (params (self s))) = (w, Ok r) →
  Py.is_list r = false →
  Py.is_dict r = false →
  _listing (self (next_batch s).2) = r ∧
  _list_index (self (next_batch s).2) = Some 0 ∧
  (Py.truthy r = false → (next_batch s).1 = Raise StopIteration) ∧
  (∀ name, r = PyObject name → (next_batch s).1 = Raise AttributeError) ∧
  (∀ page, r = PyListing page → children page ≠ [] → (next_batch s).1 = Ok tt).
Proof.
  intros Hx Hf Hl Hd.
  assert (effective r = Ok r) as He by by destruct r.
  rewrite (next_batch_fetched s w r r) by done. cbv zeta.
  destruct r as [|name|?|?|page]; try done.
  simpl. destruct (children page) as [|x xs] eqn:Hc; simpl.
  - repeat split; try done. intros page' [= <-]. by rewrite Hc.
  - by destruct (_ && _); repeat split.
Qed.

(** A refill that brings a non-empty page. *)
Lemma refill_page (s : State W) w r page :
  _exhausted (self s) = false →
  fetch (world s) (url (self s)) (deref (heap s) (params (self s))) = (w, Ok r) →
  effective r = Ok (PyListing page) →
  children page ≠ [] →
  ∃ s1, next_batch s = (Ok tt, s1) ∧
    _listing (self s1) = PyListing page ∧ _list_index (self s1) = Some 0 ∧
    limit (self s1) = limit (self s) ∧ yielded (self s1) = yielded (self s) ∧
    calls s1 = calls s ++ [sent s].
Proof.
  intros Hx Hf He Hc.
  rewrite (next_batch_fetched s w r (PyListing page)) by done. cbv zeta.
  assert (Py.truthy (PyListing page) = true) as ->
    by (simpl; by destruct (children page)).
  simpl. destruct (_ && _); eauto 10.
Qed.

(** C7. When the refill of a pull receives the two-element list
    [[X, pageY]], the current page becomes [pageY], and the outcomes of
    that pull and the following ones, [n] in all for any [n] up to the
    size of [pageY] that the limit allows, are the first [n] items of
    [pageY] in order, with that single fetch call; with [n] the size of
    [pageY] they are exactly the items of [pageY].  [X] is dropped. *)
Theorem duplicates_unwrapping (s : State W) w X pageY (n : nat) :
  needs_batch (self s) = Ok true →
  _exhausted (self s) = false →
  fetch (world s) (url (self s)) (deref (heap s) (params (self s)))
    = (w, Ok (PyList [X; PyListing pageY])) →
  (1 ≤ n ≤ length (children pageY))%nat →
  (∀ N, limit (self s) = Some N → yielded (self s) + Z.of_nat n ≤ N) →
  (pull n s).1 = Ok <$> take n (children pageY) ∧
  _listing (self (pull n s).2) = PyListing pageY ∧
  calls (pull n s).2 = calls s ++ [(url (self s), deref (heap s) (params (self s)))].
Proof.
  intros Hn Hx Hf [Hn1 Hn2] Hlim.
  destruct n as [|m]; [lia|].
  assert (limit_reached (self s) = false) as Hl.
  { unfold limit_reached. destruct (limit (self s)) as [N|] eqn:HN; [|done].
    specialize (Hlim N eq_refl). apply Z.leb_gt. lia. }
  destruct (children pageY) as [|y ys] eqn:Hc; [simpl in Hn2; lia|].
  destruct (refill_page s w (PyList [X; PyListing pageY]) pageY)
    as (s1 & Hb & Hp & Hi & Hlim1 & Hy1 & Hcalls); [done..|by rewrite Hc|].
  rewrite pull_S, next_refill, Hb, Hi, Hp by done. cbn [fst snd].
  rewrite (pull_buffered m _ pageY 1); cbn [self _listing _list_index limit
    yielded _exhausted params url heap world calls]; try done.
  - assert (Py.index (children pageY) 0 = Ok y) as Hy
      by (apply (index_nat _ 0%nat); by rewrite Hc).
    simpl. rewrite Hy, Hc. simpl. by rewrite drop_0.
  - rewrite Hc. simpl in *. lia.
  - intros N HN. rewrite Hlim1 in HN. specialize (Hlim N HN). lia.
Qed.

(** ** The index and the current page *)

Lemma well_shaped_effective r :
  well_shaped r = true → ∃ page, effective r = Ok (PyListing page).
Proof.
  destruct r as [| |l|d|page]; simpl; try done; eauto.
  destruct (l !! 1%nat) as [[| | | |page]|] eqn:Hl; try done.
  intros _. exists page. by apply (index_nat l 1%nat).
Qed.

Lemma next_index_within (s : State W) :
  (∀ w u d w' r, fetch w u d = (w', Ok r) → well_shaped r = true) →
  index_within (self s) → index_within (self (next s).2).
Proof.
  intros Hshape Hinv.
  destruct (limit_reached (self s)) eqn:Hl.
  { by rewrite next_limit_reached. }
  destruct (needs_batch (self s)) as [[]|e] eqn:Hn.
  - rewrite next_refill by done.
    destruct (next_batch s) as [res s1] eqn:Hb.
    destruct (next_batch_inv _ _ _ Hb) as [(_ & -> & ->)|(Hx & w & r & Hf & Hc)];
      [done|].
    destruct Hc as [(e & _ & -> & ->)|[(l & e & -> & Hi & _)|Hc]]; [done| |].
    { apply Hshape, well_shaped_effective in Hf as [page Hp].
      simpl in Hp. congruence. }
    destruct Hc as (r0 & o & -> & He & Ho & Hi & _ & Hok).
    apply Hshape, well_shaped_effective in Hf as [page Hp].
    assert (o = PyListing page) as -> by congruence.
    destruct res as [[]|e]; cbn [snd].
    + destruct (Hok tt eq_refl) as (page' & [= <-] & Hne).
      rewrite Hi, Ho. cbn [snd self]. right.
      exists 1, (Z.of_nat (length (children page))).
      repeat split; try done. destruct (children page); [done|simpl; lia].
    + right. exists 0, (Z.of_nat (length (children page))).
      rewrite Ho, Hi. repeat split; try done. lia.
  - destruct Hinv as [Hnone|(i & n & Hi & Hlen & Hin)].
    { unfold needs_batch in Hn. by rewrite Hnone in Hn. }
    rewrite (next_buffered s i) by done. cbn [snd self]. right.
    exists (i + 1), n. cbn [_listing _list_index]. repeat split; [done|lia|].
    unfold needs_batch in Hn. rewrite Hi, Hlen in Hn.
    destruct (Py.is_none _); simplify_eq/=.
    match goal with H : (_ <=? _) = false |- _ => apply Z.leb_gt in H end. lia.
  - by rewrite (next_type_error s e).
Qed.

(** C8 (as amended). With a collaborator that answers with pages, dicts or
    lists holding a page at index 1, at every point between pulls either
    there is no current page or [0 <= _list_index <= len(_listing)]: the
    index is a position of the page or the position just past its last
    item (which is where it stands on an empty page and after the last
    item has been handed out). *)
Theorem index_stays_within (h : gmap loc (gmap string pval)) (w : W)
    (u : string) (lim : option Z) (p : option loc) (n : nat) :
  (∀ w u d w' r, fetch w u d = (w', Ok r) → well_shaped r = true) →
  index_within (self (pull n (__init__ h w u lim p)).2).
Proof.
  intros Hshape.
  assert (∀ s : State W, index_within (self s) →
            index_within (self (pull n s).2)) as Hgen.
  { induction n as [|k IH]; intros s Hs; [done|].
    rewrite pull_S. cbn [snd]. by apply IH, next_index_within. }
  apply Hgen. by left.
Qed.

(** ** The caller's dictionary *)

Lemma pull_frame (n : nat) : ∀ (s : State W) (l : loc),
  l ≠ params (self s) →
  params (self (pull n s).2) = params (self s) ∧
  heap (pull n s).2 !! l = heap s !! l.
Proof.
  induction n as [|n IH]; intros s l Hl; [done|].
  rewrite pull_S. cbn [snd].
  destruct (next s) as [r s1] eqn:Hs. cbn [snd].
  apply next_frame in Hs as (_ & Hp & _ & _ & Hh & _).
  destruct (IH s1 l) as [IH1 IH2]; [congruence|].
  split; [congruence|]. rewrite IH2. by apply Hh.
Qed.

(** C9. The generator works on a dictionary of its own: a fresh object
    whose contents are those of the caller's [params] plus the "limit"
    entry.  The caller's dictionary is as it was after construction and
    after any number of pulls, whatever the collaborator answers. *)
Theorem caller_params_isolated (h : gmap loc (gmap string pval)) (w : W)
    (u : string) (lim : option Z) (l : loc) (d : gmap string pval) (n : nat) :
  h !! l = Some d →
  params (self (__init__ h w u lim (Some l))) ≠ l ∧
  deref (heap (__init__ h w u lim (Some l)))
        (params (self (__init__ h w u lim (Some l))))
    = <["limit" := PInt (Py.int_or lim 1024)]> d ∧
  heap (__init__ h w u lim (Some l)) !! l = Some d ∧
  heap (pull n (__init__ h w u lim (Some l))).2 !! l = Some d.
Proof.
  intros Hl.
  assert (fresh (dom h) ≠ l) as Hfresh.
  { intros <-. apply (is_fresh (dom h)). apply elem_of_dom. eauto. }
  assert (heap (__init__ h w u lim (Some l)) !! l = Some d) as H0.
  { simpl. by rewrite lookup_insert_ne. }
  split; [done|]. split; [|split; [done|]].
  - unfold deref. simpl. rewrite lookup_insert_eq. simpl.
    unfold deref. rewrite Hl. simpl.
    destruct (Z.eqb_spec (Z.of_nat (size d)) 0) as [Hz|?]; [|done].
    simpl. f_equal. symmetry. apply map_size_empty_iff. lia.
  - destruct (pull_frame n (__init__ h w u lim (Some l)) l) as [_ ->]; [|done].
    simpl. congruence.
Qed.

(** ** A limit of zero *)

(** C10. With [limit=0] the page-size hint sent to the server is 1024, as
    when no limit is given, and every pull raises [StopIteration] with the
    state untouched: the log of fetch calls stays empty. *)
Theorem zero_limit (h : gmap loc (gmap string pval)) (w : W) (u : string)
    (p : option loc) (n : nat) :
  deref (heap (__init__ h w u (Some 0) p)) (params (self (__init__ h w u (Some 0) p)))
    !! "limit" = Some (PInt 1024) ∧
  deref (heap (__init__ h w u None p)) (params (self (__init__ h w u None p)))
    !! "limit" = Some (PInt 1024) ∧
  pull n (__init__ h w u (Some 0) p)
    = (replicate n (Raise StopIteration), __init__ h w u (Some 0) p) ∧
  calls (pull n (__init__ h w u (Some 0) p)).2 = [].
Proof.
  assert (pull n (__init__ h w u (Some 0) p)
          = (replicate n (Raise StopIteration), __init__ h w u (Some 0) p)) as Hp.
  { induction n as [|n IH]; [done|].
    rewrite pull_S, next_limit_reached by done. cbn [fst snd]. by rewrite IH. }
  split; [|split; [|split; [done|by rewrite Hp]]].
  - unfold deref. simpl. rewrite lookup_insert_eq. simpl. apply lookup_insert_eq.
  - unfold deref. simpl. rewrite lookup_insert_eq. simpl. apply lookup_insert_eq.
Qed.

(** ** Empty pages *)

(** X1. A pull whose refill brings an empty page raises [StopIteration]
    whatever the cursor of that page; the exit is taken before line 83, so
    [params] is not touched and [_exhausted] is not set, and the state it
    leaves asks for a refill again. *)
Lemma empty_page_stops (s : State W) w r page :
  limit_reached (self s) = false →
  needs_batch (self s) = Ok true →
  _exhausted (self s) = false →
  fetch (world s) (url (self s)) (deref (heap s) (params (self s))) = (w, Ok r) →
  effective r = Ok (PyListing page) →
  children page = [] →
  (next s).1 = Raise StopIteration ∧
  _exhausted (self (next s).2) = false ∧
  heap (next s).2 = heap s ∧
  needs_batch (self (next s).2) = Ok true ∧
  limit_reached (self (next s).2) = false.
Proof.
  intros Hl Hn Hx Hf He Hc.
  rewrite next_refill, (next_batch_fetched s w r (PyListing page)) by done.
  cbv zeta. simpl. rewrite Hc. simpl. repeat split; try done.
  unfold needs_batch. simpl. by rewrite Hc.
Qed.

(** ** When a pull fetches *)

Lemma next_calls_needed (s : State W) :
  limit_reached (self s) = false ∧ needs_batch (self s) = Ok true ∧
  _exhausted (self s) = false →
  calls (next s).2 = calls s ++ [sent s] ∧
  params (self (next s).2) = params (self s) ∧ url (self (next s).2) = url (self s).
Proof.
  intros (Hl & Hn & Hx).
  destruct (next s) as [r s'] eqn:Hs.
  pose proof (next_frame _ _ _ Hs) as (_ & Hp & Hu & _).
  split; [|done]. cbn [snd]. rewrite next_refill in Hs by done.
  destruct (next_batch s) as [res s1] eqn:Hb.
  destruct (next_batch_inv _ _ _ Hb) as [(? & _)|(_ & w & r0 & Hf & Hc)];
    [congruence|].
  destruct Hc as [(e & _ & -> & ->)|[(l & e & _ & _ & -> & _ & _ & Hc)|Hc]];
    [by simplify_eq|by simplify_eq|].
  destruct Hc as (r1 & o & _ & _ & _ & Hi & Hc & _).
  destruct res as [[]|e]; [|by simplify_eq]. rewrite Hi in Hs. by simplify_eq.
Qed.

Lemma next_calls_not_needed (s : State W) :
  limit_reached (self s) = true ∨ needs_batch (self s) ≠ Ok true ∨
  _exhausted (self s) = true →
  calls (next s).2 = calls s ∧ world (next s).2 = world s.
Proof.
  intros Hnot.
  destruct (limit_reached (self s)) eqn:Hl.
  { by rewrite next_limit_reached. }
  destruct (needs_batch (self s)) as [[]|e] eqn:Hn.
  - destruct Hnot as [?|[?|Hx]]; [done..|].
    by rewrite next_refill, next_batch_exhausted.
  - destruct (_list_index (self s)) as [i|] eqn:Hi.
    + by rewrite (next_buffered s i).
    + unfold needs_batch in Hn. rewrite Hi in Hn.
      repeat (case_match; simplify_eq/=).
  - by rewrite (next_type_error s e).
Qed.

Lemma next_calls_or (s : State W) :
  calls (next s).2 = calls s ∨ calls (next s).2 = calls s ++ [sent s].
Proof.
  destruct (limit_reached (self s)) eqn:Hl;
    [left; apply next_calls_not_needed; by left|].
  destruct (needs_batch (self s)) as [[]|e] eqn:Hn.
  - destruct (_exhausted (self s)) eqn:Hx.
    + left. apply next_calls_not_needed. by right; right.
    + right. by apply next_calls_needed.
  - left. apply next_calls_not_needed. right; left. by rewrite Hn.
  - left. apply next_calls_not_needed. right; left. by rewrite Hn.
Qed.

(** X2. A pull asks the collaborator exactly when the limit is not reached, a
    page is needed and the generator is not exhausted; it then makes one
    call, with the url of the generator and its dictionary as it stands,
    whatever the call answers.  In every other state the pull makes no call
    and leaves the outside world alone. *)
Theorem pull_fetches_only_when_needed (s : State W) :
  (limit_reached (self s) = false ∧ needs_batch (self s) = Ok true ∧
   _exhausted (self s) = false →
   calls (next s).2
     = calls s ++ [(url (self s), deref (heap s) (params (self s)))]) ∧
  (¬ (limit_reached (self s) = false ∧ needs_batch (self s) = Ok true ∧
      _exhausted (self s) = false) →
   calls (next s).2 = calls s ∧ world (next s).2 = world s).
Proof.
  split.
  - intros H. by destruct (next_calls_needed s H) as [-> _].
  - intros Hnot. apply next_calls_not_needed.
    destruct (limit_reached (self s)); [by left|].
    destruct (needs_batch (self s)) as [[]|e]; [|right; by left..].
    destruct (_exhausted (self s)); [by right; right|by destruct Hnot].
Qed.

(** ** What a pull writes *)

Lemma deref_insert (h : gmap loc (gmap string pval)) l d :
  deref (<[l := d]> h) l = d.
Proof. unfold deref. by rewrite lookup_insert_eq. Qed.

Lemma next_batch_writes (s s' : State W) res :
  next_batch s = (res, s') →
  heap s' = heap s ∨
  ∃ page c, _listing (self s') = PyListing page ∧ after page = Some c ∧ c ≠ "" ∧
    deref (heap s) (params (self s)) !! "after" ≠ Some (PStr c) ∧
    heap s' = <[params (self s) := <["after" := PStr c]>
                  (deref (heap s) (params (self s)))]> (heap s).
Proof.
  intros H.
  destruct (next_batch_inv _ _ _ H) as [(_ & _ & ->)|(Hx & w & r & Hf & Hc)];
    [by left|].
  destruct Hc as [(e & _ & _ & ->)|[(l & e & _ & _ & _ & _ & -> & _)|Hc]];
    [by left..|].
  destruct Hc as (r0 & o & -> & He & _).
  rewrite (next_batch_fetched s w r0 o) in H by done. cbv zeta in H.
  destruct (Py.truthy o); simpl in H; [|simplify_eq/=; by left].
  destruct o as [|?|?|?|page]; simpl in H; simplify_eq/=; try by left.
  destruct (Py.truthy_cursor (after page)) eqn:Ht; simpl in H;
    [|simplify_eq/=; by left].
  destruct (Py.cursor_ne (after page) _) eqn:Hne; simplify_eq/=; [|by left].
  right. destruct (after page) as [c|] eqn:Ha; [|done].
  exists page, c. simpl in *. repeat split; try done.
  - intros ->. done.
  - intros Hold. rewrite Hold in Hne. simpl in Hne.
    by rewrite String.eqb_refl in Hne.
Qed.

Lemma next_writes (s : State W) :
  heap (next s).2 = heap s ∨
  ∃ page c, _listing (self (next s).2) = PyListing page ∧ after page = Some c ∧
    c ≠ "" ∧ deref (heap s) (params (self s)) !! "after" ≠ Some (PStr c) ∧
    heap (next s).2 = <[params (self s) := <["after" := PStr c]>
                          (deref (heap s) (params (self s)))]> (heap s).
Proof.
  destruct (next s) as [r s'] eqn:Hs. cbn [snd].
  destruct (limit_reached (self s)) eqn:Hl.
  { rewrite next_limit_reached in Hs by done. simplify_eq. by left. }
  destruct (needs_batch (self s)) as [[]|e] eqn:Hn.
  - rewrite next_refill in Hs by done.
    destruct (next_batch s) as [res s1] eqn:Hb.
    apply next_batch_writes in Hb as Hw.
    destruct res as [[]|e]; [|by simplify_eq].
    destruct (_list_index (self s1)); by simplify_eq/=.
  - destruct (_list_index (self s)) as [i|] eqn:Hi.
    + rewrite (next_buffered s i) in Hs by done. simplify_eq. by left.
    + unfold needs_batch in Hn. rewrite Hi in Hn.
      repeat (case_match; simplify_eq/=).
  - rewrite (next_type_error s e) in Hs by done. simplify_eq. by left.
Qed.

Lemma next_other_keys (s : State W) (k : string) :
  k ≠ "after" →
  deref (heap (next s).2) (params (self (next s).2)) !! k
    = deref (heap s) (params (self s)) !! k.
Proof.
  intros Hk. destruct (next s) as [r s'] eqn:Hs.
  pose proof (next_frame _ _ _ Hs) as (_ & Hp & _).
  pose proof (next_writes s) as Hw. rewrite Hs in Hw. cbn [snd] in *.
  rewrite Hp. destruct Hw as [->|(page & c & _ & _ & _ & _ & ->)]; [done|].
  by rewrite deref_insert, lookup_insert_ne.
Qed.

(** X3. The only write a pull makes to a dictionary is the assignment of line
    84: every other dictionary of the store is left alone, every key of the
    generator's dictionary other than "after" keeps its value, and "after"
    either keeps its value or receives the cursor of the page that is now the
    current page, a non-empty string that differs from the value it
    replaces. *)
Theorem pull_writes_only_the_cursor (s : State W) :
  (∀ l, l ≠ params (self s) → heap (next s).2 !! l = heap s !! l) ∧
  (∀ k, k ≠ "after" →
     deref (heap (next s).2) (params (self (next s).2)) !! k
       = deref (heap s) (params (self s)) !! k) ∧
  (deref (heap (next s).2) (params (self (next s).2)) !! "after"
     = deref (heap s) (params (self s)) !! "after" ∨
   ∃ page c, _listing (self (next s).2) = PyListing page ∧
     after page = Some c ∧ c ≠ "" ∧
     deref (heap s) (params (self s)) !! "after" ≠ Some (PStr c) ∧
     deref (heap (next s).2) (params (self (next s).2)) !! "after" = Some (PStr c)).
Proof.
  destruct (next s) as [r s'] eqn:Hs.
  pose proof (next_frame _ _ _ Hs) as (_ & Hp & _ & _ & Hframe & _).
  pose proof (next_writes s) as Hw. rewrite Hs in Hw. cbn [snd] in *.
  split; [done|]. rewrite Hp.
  destruct Hw as [->|(page & c & Hpage & Ha & Hc & Hold & ->)].
  - split; [done|by left].
  - rewrite !deref_insert. split.
    + intros k Hk. by rewrite lookup_insert_ne.
    + right. exists page, c. by rewrite lookup_insert_eq.
Qed.

(** ** Terminal states *)

Lemma pull_stuck (n : nat) (s : State W) e :
  next s = (Raise e, s) → pull n s = (replicate n (Raise e), s).
Proof.
  intros H. induction n as [|n IH]; [done|].
  rewrite pull_S, H. cbn [fst snd]. by rewrite IH.
Qed.

Lemma next_terminal (s : State W) :
  limit_reached (self s) = true ∨
  (_exhausted (self s) = true ∧ needs_batch (self s) = Ok true) →
  next s = (Raise StopIteration, s).
Proof.
  intros H.
  destruct (limit_reached (self s)) eqn:Hl; [by apply next_limit_reached|].
  destruct H as [?|[Hx Hn]]; [done|].
  by rewrite next_refill, next_batch_exhausted.
Qed.

(** X4. Once the limit is reached, or once the generator is exhausted and its
    last page is used up, the generator is inert: every pull from then on
    raises [StopIteration] and nothing changes any more, the log of fetch
    calls included. *)
Theorem terminal_states_are_inert (s : State W) (n : nat) :
  limit_reached (self s) = true ∨
  (_exhausted (self s) = true ∧ needs_batch (self s) = Ok true) →
  pull n s = (replicate n (Raise StopIteration), s).
Proof.
  intros H. induction n as [|n IH]; [done|].
  rewrite pull_S, (next_terminal s H). cbn [fst snd]. by rewrite IH.
Qed.

(** ** A page from refill to last item *)

Lemma pull_app (n m : nat) : ∀ s : State W,
  pull (n + m) s
    = ((pull n s).1 ++ (pull m (pull n s).2).1, (pull m (pull n s).2).2).
Proof.
  induction n as [|n IH]; intros s.
  - simpl. by destruct (pull m s).
  - change (S n + m)%nat with (S (n + m)). rewrite !pull_S, IH. done.
Qed.

Lemma advances_true (c : string) (old : option pval) :
  c ≠ "" → old ≠ Some (PStr c) → advances (Some c) old = true.
Proof.
  intros Hc Hold. unfold advances. simpl. apply andb_true_iff. split.
  - by apply negb_true_iff, String.eqb_neq.
  - destruct old as [[c'|z]|]; try done.
    apply negb_true_iff, String.eqb_neq. congruence.
Qed.

Lemma advances_false (a : option string) (old : option pval) :
  a = None ∨ a = Some "" ∨ old = PStr <$> a → advances a old = false.
Proof.
  unfold advances. intros [-> | [-> | ->]]; [done..|].
  destruct a as [c|]; [|done]. simpl. rewrite String.eqb_refl.
  apply andb_false_r.
Qed.

(** The pull that refills on a non-empty page and the pulls that follow it
    on that page, with the state they reach. *)
Lemma pull_page (s : State W) w r page (n : nat) :
  needs_batch (self s) = Ok true →
  _exhausted (self s) = false →
  fetch (world s) (url (self s)) (deref (heap s) (params (self s))) = (w, Ok r) →
  effective r = Ok (PyListing page) →
  (1 ≤ n ≤ length (children page))%nat →
  (∀ N, limit (self s) = Some N → yielded (self s) + Z.of_nat n ≤ N) →
  pull n s =
    (Ok <$> take n (children page),
     MkState
       (MkGen (negb (advances (after page)
                       (deref (heap s) (params (self s)) !! "after")))
              (PyListing page) (Some (Z.of_nat n)) (limit (self s))
              (params (self s)) (url (self s)) (yielded (self s) + Z.of_nat n))
       (if advances (after page) (deref (heap s) (params (self s)) !! "after")
        then <[params (self s) := <["after" := PStr (default "" (after page))]>
                 (deref (heap s) (params (self s)))]> (heap s)
        else heap s)
       w (calls s ++ [sent s])).
Proof.
  intros Hn Hx Hf He [Hn1 Hn2] Hlim.
  destruct n as [|m]; [lia|].
  assert (limit_reached (self s) = false) as Hl.
  { unfold limit_reached. destruct (limit (self s)) as [N|] eqn:HN; [|done].
    specialize (Hlim N eq_refl). apply Z.leb_gt. lia. }
  destruct (children page) as [|y ys] eqn:Hc; [simpl in Hn2; lia|].
  assert (Py.index (children page) 0 = Ok y) as Hy
    by (apply (index_nat _ 0%nat); by rewrite Hc).
  rewrite pull_S, next_refill, (next_batch_fetched s w r (PyListing page)) by done.
  cbv zeta. unfold advances.
  assert (Py.truthy (PyListing page) = true) as -> by (simpl; by rewrite Hc).
  cbn [negb Py.getattr_after].
  assert (Z.of_nat (1 + m) = Z.of_nat (S m)) as Hi by lia.
  assert (yielded (self s) + 1 + Z.of_nat m = yielded (self s) + Z.of_nat (S m))
    as Hcount by lia.
  destruct (Py.truthy_cursor (after page) && Py.cursor_ne (after page) _);
    cbn [fst snd self _list_index _listing Py.getitem]; rewrite Hy;
    (rewrite (pull_buffered m _ page 1); cbn [self _listing _list_index limit
      yielded _exhausted params url heap world calls fst snd negb]; try done;
     [ rewrite Hc; simpl drop; rewrite drop_0, Hi, Hcount, ?Hx; done
     | rewrite Hc; simpl in *; lia
     | intros N HN; specialize (Hlim N HN); lia ]).
Qed.

(** X5. A page whose cursor is null, empty or the one already stored is the
    last one: the pulls hand out its items in order and every pull after
    them raises [StopIteration], all of it with the single fetch call that
    brought the page. *)
Theorem last_page_ends_listing (s : State W) w r page (k : nat) :
  needs_batch (self s) = Ok true →
  _exhausted (self s) = false →
  fetch (world s) (url (self s)) (deref (heap s) (params (self s))) = (w, Ok r) →
  effective r = Ok (PyListing page) →
  children page ≠ [] →
  (after page = None ∨ after page = Some "" ∨
   deref (heap s) (params (self s)) !! "after" = PStr <$> after page) →
  (∀ N, limit (self s) = Some N →
        yielded (self s) + Z.of_nat (length (children page)) ≤ N) →
  (pull (length (children page) + k) s).1
    = (Ok <$> children page) ++ replicate k (Raise StopIteration) ∧
  calls (pull (length (children page) + k) s).2
    = calls s ++ [(url (self s), deref (heap s) (params (self s)))] ∧
  heap (pull (length (children page) + k) s).2 = heap s.
Proof.
  intros Hn Hx Hf He Hc Hlast Hlim.
  assert (1 ≤ length (children page))%nat as Hlen
    by (destruct (children page); [done|simpl; lia]).
  rewrite pull_app, (pull_page s w r page) by (done || lia).
  rewrite (advances_false _ _ Hlast). cbn [fst snd negb].
  rewrite pull_stuck with (e := StopIteration); [by rewrite firstn_all|].
  apply next_terminal. right. split; [done|]. unfold needs_batch. simpl. f_equal. apply Z.leb_le. lia.
Qed.

(** X6. A page with a new cursor: once its items have been handed out, the next
    pull asks the collaborator again, and that request carries the
    dictionary of the first request with "after" set to the cursor of the
    page. *)
Theorem cursor_sent_with_next_request (s : State W) w r page c :
  needs_batch (self s) = Ok true →
  _exhausted (self s) = false →
  fetch (world s) (url (self s)) (deref (heap s) (params (self s))) = (w, Ok r) →
  effective r = Ok (PyListing page) →
  children page ≠ [] →
  after page = Some c → c ≠ "" →
  deref (heap s) (params (self s)) !! "after" ≠ Some (PStr c) →
  (∀ N, limit (self s) = Some N →
        yielded (self s) + Z.of_nat (length (children page)) + 1 ≤ N) →
  take (length (children page)) (pull (length (children page) + 1) s).1
    = Ok <$> children page ∧
  calls (pull (length (children page) + 1) s).2
    = calls s ++ [(url (self s), deref (heap s) (params (self s)));
                  (url (self s),
                   <["after" := PStr c]> (deref (heap s) (params (self s))))].
Proof.
  intros Hn Hx Hf He Hc Ha Hne Hold Hlim.
  assert (1 ≤ length (children page))%nat as Hlen
    by (destruct (children page); [done|simpl; lia]).
  rewrite pull_app.
  rewrite (pull_page s w r page (length (children page)));
    [|done..|lia|intros N HN; specialize (Hlim N HN); lia].
  rewrite Ha, (advances_true c _ Hne Hold). cbn [fst snd negb default].
  rewrite firstn_all.
  set (s1 := MkState _ _ _ _).
  change (pull 1 s1) with (pulls fetch FlairListing 1 s1).
  rewrite (pull_S 0 s1). cbn [pulls fst snd].
  split.
  - rewrite take_app_length'; [done|by rewrite length_fmap].
  - assert (calls (next s1).2 = calls s1 ++ [sent s1]) as ->.
    { destruct (next_calls_needed s1) as [Hcall _]; [|done].
      subst s1. cbn [self _exhausted limit yielded _listing _list_index].
      split; [|split; [|done]].
      - unfold limit_reached. cbn [limit yielded].
        destruct (limit (self s)) as [N|] eqn:HN; [|done].
        specialize (Hlim N eq_refl). apply Z.leb_gt. lia.
      - unfold needs_batch. simpl. f_equal. apply Z.leb_le. lia. }
    subst s1. cbn [calls self url params heap]. rewrite deref_insert.
    by rewrite <- app_assoc.
Qed.

(** ** The requests of a run *)

Lemma pull_requests (u : string) (v : pval) (n : nat) : ∀ s : State W,
  url (self s) = u →
  deref (heap s) (params (self s)) !! "limit" = Some v →
  Forall (λ c, c.1 = u ∧ c.2 !! "limit" = Some v) (calls s) →
  Forall (λ c, c.1 = u ∧ c.2 !! "limit" = Some v) (calls (pull n s).2).
Proof.
  induction n as [|n IH]; intros s Hu Hv Hall; [done|].
  rewrite pull_S. cbn [snd]. apply IH.
  - destruct (next s) as [r s1] eqn:Hs. cbn [snd].
    apply next_frame in Hs as (_ & _ & -> & _). done.
  - by rewrite next_other_keys.
  - destruct (next_calls_or s) as [->| ->]; [done|].
    apply Forall_app. split; [done|]. by repeat constructor.
Qed.

(** X7. Every request of a run goes to the url given at construction and
    carries the page-size hint fixed at construction under "limit": the
    limit itself, or 1024 when the limit is [None] or 0. *)
Theorem requests_keep_url_and_limit (h : gmap loc (gmap string pval)) (w : W)
    (u : string) (lim : option Z) (p : option loc) (n : nat) :
  Forall (λ c, c.1 = u ∧ c.2 !! "limit" = Some (PInt (Py.int_or lim 1024)))
         (calls (pull n (__init__ h w u lim p)).2).
Proof.
  apply pull_requests; [done| |by constructor].
  simpl. rewrite deref_insert. apply lookup_insert_eq.
Qed.

(** ** The counter and the items *)

Lemma index_in_range {A : Type} (l : list A) (i : Z) :
  0 ≤ i < Z.of_nat (length l) → ∃ x, Py.index l i = Ok x.
Proof.
  intros Hi.
  destruct (lookup_lt_is_Some_2 l (Z.to_nat i)) as [x Hx]; [lia|].
  exists x. rewrite <- (Z2Nat.id i) by lia. by apply index_nat.
Qed.

Lemma next_on_page (s : State W) :
  (∀ w u d w' r, fetch w u d = (w', Ok r) → well_shaped r = true) →
  on_page (self s) →
  on_page (self (next s).2) ∧
  ((∃ x, (next s).1 = Ok x ∧ yielded (self (next s).2) = yielded (self s) + 1) ∨
   (∃ e, (next s).1 = Raise e ∧ yielded (self (next s).2) = yielded (self s))).
Proof.
  intros Hshape Hinv.
  destruct (limit_reached (self s)) eqn:Hl.
  { rewrite next_limit_reached by done. split; [done|]. right. eauto. }
  destruct (needs_batch (self s)) as [[]|e] eqn:Hn.
  - rewrite next_refill by done.
    destruct (next_batch s) as [res s1] eqn:Hb.
    pose proof (next_batch_frame _ _ _ Hb) as (_ & _ & _ & Hy & _).
    destruct (next_batch_inv _ _ _ Hb) as [(_ & -> & ->)|(Hx & w & r & Hf & Hc)].
    { split; [done|]. right. eauto. }
    destruct Hc as [(e & _ & -> & ->)|[(l & e & -> & Hi & _)|Hc]].
    { split; [done|]. right. eauto. }
    { apply Hshape, well_shaped_effective in Hf as [page Hp].
      simpl in Hp. congruence. }
    destruct Hc as (r0 & o & -> & He & Ho & Hi & _ & Hok).
    apply Hshape, well_shaped_effective in Hf as [page Hp].
    assert (o = PyListing page) as -> by congruence.
    destruct res as [[]|e]; cbn [fst snd].
    + destruct (Hok tt eq_refl) as (page' & [= <-] & Hne).
      rewrite Hi, Ho. cbn [fst snd self yielded Py.getitem].
      assert (0 < Z.of_nat (length (children page)))
        by (destruct (children page); [done|simpl; lia]).
      split.
      * right. exists page, 1. cbn [_listing _list_index].
        repeat split; try done. lia.
      * left. destruct (index_in_range (children page) 0) as [x Hx0]; [lia|].
        exists x. split; [done|]. by rewrite Hy.
    + split; [|right; eauto]. right. exists page, 0.
      repeat split; try done. lia.
  - destruct Hinv as [Hnone|(page & i & Hp & Hi & Hin)].
    { unfold needs_batch in Hn. by rewrite Hnone in Hn. }
    assert (i < Z.of_nat (length (children page))) as Hlt.
    { unfold needs_batch in Hn. rewrite Hp, Hi in Hn. simpl in Hn.
      simplify_eq. match goal with H : (_ <=? _) = false |- _ =>
        by apply Z.leb_gt in H end. }
    rewrite (next_buffered s i) by done. cbn [fst snd self yielded]. split.
    + right. exists page, (i + 1). cbn [_listing _list_index].
      repeat split; try done; lia.
    + left. rewrite Hp. simpl.
      destruct (index_in_range (children page) i) as [x Hx0]; [lia|]. eauto.
  - rewrite (next_type_error s e) by done. split; [done|]. right. eauto.
Qed.

Lemma pull_counts (n : nat) : ∀ s : State W,
  (∀ w u d w' r, fetch w u d = (w', Ok r) → well_shaped r = true) →
  on_page (self s) →
  yielded (self (pull n s).2)
    = yielded (self s) + Z.of_nat (length (items (pull n s).1)).
Proof.
  induction n as [|n IH]; intros s Hshape Hinv; [simpl; lia|].
  rewrite pull_S. cbn [fst snd].
  destruct (next_on_page s Hshape Hinv) as [Hinv1 Hstep].
  rewrite (IH _ Hshape Hinv1).
  destruct Hstep as [(x & -> & ->)|(e & -> & ->)]; simpl; lia.
Qed.

(** X8. With a collaborator that answers in the shapes the code handles (pages,
    dicts, lists with a page at index 1), [yielded] is at every point of a
    run the number of items the pulls have returned so far: a pull that
    raises does not count, a pull that returns counts for one. *)
Theorem yielded_counts_items (h : gmap loc (gmap string pval)) (w : W)
    (u : string) (lim : option Z) (p : option loc) (n : nat) :
  (∀ w u d w' r, fetch w u d = (w', Ok r) → well_shaped r = true) →
  yielded (self (pull n (__init__ h w u lim p)).2)
    = Z.of_nat (length (items (pull n (__init__ h w u lim p)).1)).
Proof.
  intros Hshape. rewrite pull_counts; [done..|by left].
Qed.

(** ** The other shapes of a response *)

(** X9. A dict response is wrapped by [FlairListing]: the wrapped page becomes
    the current page, and the pull and the pulls after it hand out the items
    of the wrapped page in order (as many as the limit allows), with the one
    fetch call. *)
Theorem flair_response_is_wrapped (s : State W) w d (n : nat) :
  needs_batch (self s) = Ok true →
  _exhausted (self s) = false →
  fetch (world s) (url (self s)) (deref (heap s) (params (self s)))
    = (w, Ok (PyDict d)) →
  (1 ≤ n ≤ length (children (FlairListing d)))%nat →
  (∀ N, limit (self s) = Some N → yielded (self s) + Z.of_nat n ≤ N) →
  (pull n s).1 = Ok <$> take n (children (FlairListing d)) ∧
  _listing (self (pull n s).2) = PyListing (FlairListing d) ∧
  _list_index (self (pull n s).2) = Some (Z.of_nat n) ∧
  calls (pull n s).2 = calls s ++ [(url (self s), deref (heap s) (params (self s)))].
Proof.
  intros Hn Hx Hf Hlen Hlim.
  by rewrite (pull_page s w (PyDict d) (FlairListing d) n).
Qed.

(** X10. A list response without an element at index 1 (an empty list, a list of
    one element): the pull raises [IndexError] at line 75.  By then the raw
    list has been stored as the current page; the index, the exhaustion
    flag, the counter and the dictionaries are as before the pull. *)
Theorem short_list_raises_index_error (s : State W) w l :
  limit_reached (self s) = false →
  needs_batch (self s) = Ok true →
  _exhausted (self s) = false →
  fetch (world s) (url (self s)) (deref (heap s) (params (self s)))
    = (w, Ok (PyList l)) →
  (length l < 2)%nat →
  (next s).1 = Raise IndexError ∧
  _listing (self (next s).2) = PyList l ∧
  _list_index (self (next s).2) = _list_index (self s) ∧
  _exhausted (self (next s).2) = false ∧
  yielded (self (next s).2) = yielded (self s) ∧
  heap (next s).2 = heap s.
Proof.
  intros Hl Hn Hx Hf Hlen.
  assert (Py.index l 1 = Raise IndexError) as Hi.
  { unfold Py.index. simpl.
    destruct (Z.leb_spec (Z.of_nat (length l)) 1) as [_|?]; [done|lia]. }
  by rewrite next_refill, (next_batch_bad_list s w l IndexError).
Qed.

(** ** Loops over the generator *)

Local Abbreviation loop := (drain fetch FlairListing).



Lemma drain_bounded (N : Z) (fuel : nat) : ∀ s : State W,
  limit (self s) = Some N →
  (Z.to_nat (N - yielded (self s)) < fuel)%nat →
  ∃ res s', loop fuel s = Some (res, s') ∧
    ∀ xs, res = Ok xs → (length xs ≤ Z.to_nat (N - yielded (self s)))%nat.
Proof.
  induction fuel as [|k IH]; intros s HN Hfuel; [lia|].
  cbn [drain]. destruct (next s) as [r s1] eqn:Hs.
  apply next_frame in Hs as (Hlim & _ & _ & _ & _ & Hcnt).
  destruct r as [x|e].
  - destruct Hcnt as [[_ [e ?]]|[Hy Hl]]; [done|].
    unfold limit_reached in Hl. rewrite HN in Hl. apply Z.leb_gt in Hl.
    destruct (IH s1) as (res & s' & -> & Hres); [congruence|lia|].
    destruct res as [xs|e].
    + eexists _, _. split; [done|]. intros ys [= <-].
      specialize (Hres xs eq_refl). simpl. lia.
    + eexists _, _. split; [done|]. done.
  - destruct e; eexists _, _; (split; [done|]); intros xs [= <-]; simpl; lia.
Qed.

(** X11. With a limit, collecting the generator always ends, whatever the
    collaborator does: [list(gen)] needs at most [limit + 1] pulls, and when
    it returns a list the list has at most [limit] items (none for a limit
    that is zero or negative). *)
Theorem list_terminates_with_limit (h : gmap loc (gmap string pval)) (w : W)
    (u : string) (N : Z) (p : option loc) :
  ∃ res s',
    py_list fetch FlairListing (S (Z.to_nat N)) (__init__ h w u (Some N) p)
      = Some (res, s') ∧
    ∀ xs, res = Ok xs → (length xs ≤ Z.to_nat N)%nat.
Proof.
  destruct (drain_bounded N (S (Z.to_nat N)) (__init__ h w u (Some N) p))
    as (res & s' & Hd & Hres); [done|simpl; rewrite Z.sub_0_r; lia|].
  exists res, s'. split; [exact Hd|].
  intros xs Hxs. specialize (Hres xs Hxs). simpl in Hres.
  by rewrite Z.sub_0_r in Hres.
Qed.

(** ** What never changes *)

(** X12. The pulls never touch the configuration of the generator: [limit], [url]
    and the dictionary it uses are those of the start state after any number
    of pulls; and [yielded] only grows, by at most one per pull. *)
Theorem configuration_is_constant (s : State W) (n : nat) :
  limit (self (pull n s).2) = limit (self s) ∧
  url (self (pull n s).2) = url (self s) ∧
  params (self (pull n s).2) = params (self s) ∧
  yielded (self s) ≤ yielded (self (pull n s).2) ≤ yielded (self s) + Z.of_nat n.
Proof.
  revert s. induction n as [|n IH]; intros s;
    [simpl; repeat split; (done || lia)|].
  rewrite pull_S. cbn [snd].
  destruct (next s) as [r s1] eqn:Hs. cbn [snd].
  apply next_frame in Hs as (Hl & Hp & Hu & _ & _ & Hcnt).
  destruct (IH s1) as (IHl & IHu & IHp & IHy).
  rewrite IHl, IHu, IHp. repeat split; try done;
    destruct Hcnt as [[Hy _]|[Hy _]]; lia.
Qed.

(** X13. A fresh generator whose first response is a list without an element at
    index 1 is wedged: the first pull raises [IndexError], and every pull
    after it raises [TypeError] at line 62 ([_list_index] is still [None]
    while [_listing] no longer is), without asking the collaborator again. *)
Theorem short_list_wedges_fresh_generator (h : gmap loc (gmap string pval))
    (w : W) (u : string) (lim : option Z) (p : option loc) w' l (n : nat) :
  limit_reached (self (__init__ h w u lim p)) = false →
  fetch w u (deref (heap (__init__ h w u lim p))
                   (params (self (__init__ h w u lim p)))) = (w', Ok (PyList l)) →
  (length l < 2)%nat →
  (pull (S n) (__init__ h w u lim p)).1
    = Raise IndexError :: replicate n (Raise TypeError) ∧
  length (calls (pull (S n) (__init__ h w u lim p)).2) = 1%nat.
Proof.
  intros Hl Hf Hlen.
  assert (Py.index l 1 = Raise IndexError) as Hi.
  { unfold Py.index. simpl.
    destruct (Z.leb_spec (Z.of_nat (length l)) 1) as [_|?]; [done|lia]. }
  rewrite pull_S, next_refill, (next_batch_bad_list _ w' l IndexError) by done.
  cbn [fst snd]. rewrite (pull_stuck n _ TypeError); [done|].
  by apply next_type_error.
Qed.

End Properties.

(** ** A whole listing *)

Section Flattening.

Variable FlairListing : gmap string pyobj → Listing pyobj.

Local Abbreviation run := (pulls Script.fetch_pages FlairListing).
Local Abbreviation loop := (drain Script.fetch_pages FlairListing).
Local Abbreviation room s total :=
  (match limit (self s) with
   | None => total
   | Some N => Z.to_nat (N - yielded (self s))
   end).





End Flattening.

(** ** The statements at concrete inputs *)

(** A listing of three pages whose cursors are t3_b, t3_c and t3_c again:
    the items come out in order, the repeated cursor ends the listing after
    the third page, and the three requests carry no cursor, t3_b and t3_c. *)
Example three_pages_run :
  let s0 := __init__ ∅ [Ok (Script.page ["a"; "b"] (Some "t3_b"));
                        Ok (Script.page ["c"] (Some "t3_c"));
                        Ok (Script.page ["d"] (Some "t3_c"));
                        Ok (Script.page ["e"] None)]
              "/r/x/new" None None in
  let run := pulls Script.fetch Script.flair 6 s0 in
  run.1 = [Ok (PyObject "a"); Ok (PyObject "b"); Ok (PyObject "c");
           Ok (PyObject "d"); Raise StopIteration; Raise StopIteration] ∧
  (λ c, c.2 !! "after") <$> calls run.2
    = [None; Some (PStr "t3_b"); Some (PStr "t3_c")] ∧
  (λ c, c.2 !! "limit") <$> calls run.2
    = [Some (PInt 1024); Some (PInt 1024); Some (PInt 1024)] ∧
  _exhausted (self run.2) = true.
Proof. vm_compute. done. Qed.

(** A limit of 3 over pages of two items: the fourth pull stops without a
    third request. *)
Example limit_cuts_the_run :
  let s0 := __init__ ∅ [Ok (Script.page ["a"; "b"] (Some "t3_b"));
                        Ok (Script.page ["c"; "d"] (Some "t3_d"));
                        Ok (Script.page ["e"] None)]
              "/r/x/new" (Some 3) None in
  let run := pulls Script.fetch Script.flair 5 s0 in
  run.1 = [Ok (PyObject "a"); Ok (PyObject "b"); Ok (PyObject "c");
           Raise StopIteration; Raise StopIteration] ∧
  length (calls run.2) = 2%nat ∧
  (λ c, c.2 !! "limit") <$> calls run.2 = [Some (PInt 3); Some (PInt 3)].
Proof. vm_compute. done. Qed.

(** A list response without an element at index 1 is outside the shapes of
    [well_shaped]: line 75 raises [IndexError] with the raw list already
    stored in [_listing] and [_list_index] not yet assigned. *)
Example short_list_run :
  let s0 := __init__ ∅ [Ok (PyList [Script.page ["a"] None])] "/duplicates/x" None None in
  let r := __next__ Script.fetch Script.flair s0 in
  r.1 = Raise IndexError ∧
  _listing (self r.2) = PyList [Script.page ["a"] None] ∧
  _list_index (self r.2) = None ∧
  ¬ index_within (self r.2).
Proof.
  vm_compute. repeat split; try done.
  intros [H|(i & n & H & _)]; discriminate.
Qed.

(** A flair response (a dict) is wrapped into a page. *)
Example flair_run :
  let d : gmap string pyobj := {["users" := PyList [PyObject "u1"; PyObject "u2"]]} in
  let s0 := __init__ ∅ [Ok (PyDict d)] "/r/x/api/flairlist" None None in
  (pulls Script.fetch Script.flair 3 s0).1
    = [Ok (PyObject "u1"); Ok (PyObject "u2"); Raise StopIteration].
Proof. vm_compute. done. Qed.

(** The limit, on a page of three items with a limit of 2. *)
Lemma limit_enforcement_witness :
  0 ≤ 2 ∧
  let s0 := __init__ ∅ [Ok (Script.page ["a"; "b"; "c"] None)] "/r/x/new" (Some 2) None in
  0 ≤ yielded (self (pulls Script.fetch Script.flair 2 s0).2) ≤ 2 ∧
  Z.of_nat (length (items (pulls Script.fetch Script.flair 2 s0).1)) ≤ 2 ∧
  (2 ≤ yielded (self (pulls Script.fetch Script.flair 2 s0).2) →
   __next__ Script.fetch Script.flair (pulls Script.fetch Script.flair 2 s0).2
     = (Raise StopIteration, (pulls Script.fetch Script.flair 2 s0).2)) ∧
  (Z.of_nat (length (items (pulls Script.fetch Script.flair 2 s0).1)) = 2 →
   __next__ Script.fetch Script.flair (pulls Script.fetch Script.flair 2 s0).2
     = (Raise StopIteration, (pulls Script.fetch Script.flair 2 s0).2)).
Proof.
  split; [lia|].
  apply (limit_enforcement Script.fetch Script.flair ∅
           [Ok (Script.page ["a"; "b"; "c"] None)] "/r/x/new" 2 None 2).
  lia.
Defined.

(** The cursor rule, on a first refill that brings a cursor. *)
Lemma cursor_advancement_witness :
  let page := MkListing [PyObject "a"; PyObject "b"] (Some "t3_b") in
  let s0 := __init__ ∅ [Ok (PyListing page); Ok (Script.page ["c"] None)]
              "/r/x/new" None None in
  let s1 := (_next_batch Script.fetch Script.flair s0).2 in
  _exhausted (self s0) = false ∧
  Script.fetch (world s0) (url (self s0)) (deref (heap s0) (params (self s0)))
    = ([Ok (Script.page ["c"] None)], Ok (PyListing page)) ∧
  effective_page Script.flair (PyListing page) = Ok (PyListing page) ∧
  children page ≠ [] ∧
  (_next_batch Script.fetch Script.flair s0).1 = Ok tt ∧
  _listing (self s1) = PyListing page ∧
  _list_index (self s1) = Some 0 ∧
  (∀ c, after page = Some c → c ≠ "" →
        deref (heap s0) (params (self s0)) !! "after" ≠ Some (PStr c) →
        heap s1 = <[params (self s0) := <["after" := PStr c]>
                      (deref (heap s0) (params (self s0)))]> (heap s0) ∧
        deref (heap s1) (params (self s1)) !! "after" = Some (PStr c) ∧
        _exhausted (self s1) = false) ∧
  ((after page = None ∨ after page = Some "" ∨
    deref (heap s0) (params (self s0)) !! "after" = PStr <$> after page) →
   heap s1 = heap s0 ∧ _exhausted (self s1) = true) ∧
  (∀ n : nat, (n ≤ length (children page))%nat →
     (∀ N, limit (self s1) = Some N → yielded (self s1) + Z.of_nat n ≤ N) →
     (pulls Script.fetch Script.flair n s1).1 = Ok <$> take n (children page)).
Proof.
  intros page s0 s1.
  split; [reflexivity|]. split; [reflexivity|]. split; [reflexivity|].
  split; [discriminate|].
  apply (cursor_advancement Script.fetch Script.flair s0
           [Ok (Script.page ["c"] None)] (PyListing page) page).
  - reflexivity.
  - reflexivity.
  - reflexivity.
  - discriminate.
Defined.

(** Exhaustion, after a page without cursor has been fetched. *)
Lemma exhaustion_absorbing_witness :
  let s0 := __init__ ∅ [Ok (Script.page ["a"; "b"] None)] "/r/x/new" None None in
  let s1 := (__next__ Script.fetch Script.flair s0).2 in
  _exhausted (self s1) = true ∧
  _exhausted (self (pulls Script.fetch Script.flair 3 s1).2) = true ∧
  _next_batch Script.fetch Script.flair (pulls Script.fetch Script.flair 3 s1).2
    = (Raise StopIteration, (pulls Script.fetch Script.flair 3 s1).2) ∧
  calls (pulls Script.fetch Script.flair 3 s1).2 = calls s1 ∧
  world (pulls Script.fetch Script.flair 3 s1).2 = world s1.
Proof.
  intros s0 s1.
  assert (_exhausted (self s1) = true) as H by (vm_compute; reflexivity).
  split; [exact H|].
  exact (exhaustion_absorbing Script.fetch Script.flair s1 3 H).
Defined.

(** A failing fetch, on a server whose first answer is an error. *)
Lemma fetch_failure_atomic_witness :
  let s0 := __init__ ∅ [Raise (Raised "ServerError"); Ok (Script.page ["a"] None)]
              "/r/x/new" (Some 3) None in
  let r1 := __next__ Script.fetch Script.flair s0 in
  Script.fetch (world s0) (url (self s0)) (deref (heap s0) (params (self s0)))
    = ([Ok (Script.page ["a"] None)], Raise (Raised "ServerError")) ∧
  calls r1.2 ≠ calls s0 ∧
  r1.1 = Raise (Raised "ServerError") ∧ self r1.2 = self s0 ∧ heap r1.2 = heap s0 ∧
  calls r1.2 = calls s0 ++ [(url (self s0), deref (heap s0) (params (self s0)))].
Proof.
  intros s0 r1.
  assert (Script.fetch (world s0) (url (self s0)) (deref (heap s0) (params (self s0)))
          = ([Ok (Script.page ["a"] None)], Raise (Raised "ServerError"))) as Hf
    by reflexivity.
  assert (calls r1.2 ≠ calls s0) as Hc by (vm_compute; discriminate).
  split; [exact Hf|]. split; [exact Hc|].
  exact (fetch_failure_atomic Script.fetch Script.flair s0 r1.2 r1.1 _ _ Hf
           (surjective_pairing r1) Hc).
Defined.

(** The bare shape, on a page of two items. *)
Lemma unrecognised_shape_taken_as_page_witness :
  let r := Script.page ["a"; "b"] (Some "t3_b") in
  let s0 := __init__ ∅ [Ok r] "/r/x/new" None None in
  let b := _next_batch Script.fetch Script.flair s0 in
  _exhausted (self s0) = false ∧
  Py.is_list r = false ∧ Py.is_dict r = false ∧
  _listing (self b.2) = r ∧
  _list_index (self b.2) = Some 0 ∧
  (Py.truthy r = false → b.1 = Raise StopIteration) ∧
  (∀ name, r = PyObject name → b.1 = Raise AttributeError) ∧
  (∀ page, r = PyListing page → children page ≠ [] → b.1 = Ok tt).
Proof.
  intros r s0 b.
  split; [reflexivity|]. split; [reflexivity|]. split; [reflexivity|].
  apply (unrecognised_shape_taken_as_page Script.fetch Script.flair s0 [] r);
    reflexivity.
Defined.

(** The list shape, on a duplicates response with two duplicates. *)
Lemma duplicates_unwrapping_witness :
  let Y := MkListing [PyObject "dup1"; PyObject "dup2"] None in
  let X := Script.page ["original"] None in
  let s0 := __init__ ∅ [Ok (PyList [X; PyListing Y])] "/duplicates/x" (Some 10) None in
  needs_batch (self s0) = Ok true ∧
  (1 ≤ 2 ≤ length (children Y))%nat ∧
  (pulls Script.fetch Script.flair 2 s0).1 = Ok <$> take 2 (children Y) ∧
  _listing (self (pulls Script.fetch Script.flair 2 s0).2) = PyListing Y ∧
  calls (pulls Script.fetch Script.flair 2 s0).2
    = calls s0 ++ [(url (self s0), deref (heap s0) (params (self s0)))].
Proof.
  intros Y X s0.
  split; [reflexivity|]. split; [simpl; lia|].
  apply (duplicates_unwrapping Script.fetch Script.flair s0 [] X Y 2).
  - reflexivity.
  - reflexivity.
  - reflexivity.
  - simpl; lia.
  - intros N [= <-]. simpl. lia.
Defined.

(** The index bound, on a server of bare pages. *)
Lemma index_stays_within_witness :
  (∀ w u d w' r, Script.fetch_pages w u d = (w', Ok r) → well_shaped r = true) ∧
  index_within
    (self (pulls Script.fetch_pages Script.flair 3
             (__init__ ∅ [MkListing [PyObject "a"; PyObject "b"] (Some "t3_b");
                          MkListing [] None]
                       "/r/x/new" None None)).2).
Proof.
  assert (∀ w u d w' r, Script.fetch_pages w u d = (w', Ok r) → well_shaped r = true)
    as H.
  { intros [|p w] u d w' r; simpl; intros [= <- <-]. reflexivity. }
  split; [exact H|].
  exact (index_stays_within Script.fetch_pages Script.flair ∅ _ "/r/x/new" None None 3 H).
Defined.

(** Isolation, with a caller dictionary that has a cursor of its own. *)
Lemma caller_params_isolated_witness :
  let d : gmap string pval := {["after" := PStr "t3_0"; "t" := PStr "week"]} in
  let h : gmap loc (gmap string pval) := {[7%positive := d]} in
  let s0 := __init__ h [Ok (Script.page ["a"] (Some "t3_a")); Ok (Script.page ["b"] None)]
              "/r/x/top" None (Some 7%positive) in
  h !! 7%positive = Some d ∧
  params (self s0) ≠ 7%positive ∧
  deref (heap s0) (params (self s0)) = <["limit" := PInt (Py.int_or None 1024)]> d ∧
  heap s0 !! 7%positive = Some d ∧
  heap (pulls Script.fetch Script.flair 3 s0).2 !! 7%positive = Some d.
Proof.
  intros d h s0.
  assert (h !! 7%positive = Some d) as H by (vm_compute; reflexivity).
  split; [exact H|].
  exact (caller_params_isolated Script.fetch Script.flair h _ "/r/x/top" None
           7%positive d 3 H).
Defined.

(** C3. The first answer of the server is an empty page (with a cursor):
    the first pull raises [StopIteration], as the claim says.  But
    [_exhausted] is still false, and the second pull fetches again (two calls
    in the log) and hands out an item of the page it then gets: the generator
    is not inert and the empty listing is retried. *)
Theorem empty_page_fetched_again :
  let s0 := __init__ ∅ [Ok (Script.page [] (Some "t3_a")); Ok (Script.page ["b"] None)]
              "/r/x/new" None None in
  (pulls Script.fetch Script.flair 2 s0).1 = [Raise StopIteration; Ok (PyObject "b")] ∧
  _exhausted (self (__next__ Script.fetch Script.flair s0).2) = false ∧
  length (calls (__next__ Script.fetch Script.flair s0).2) = 1%nat ∧
  length (calls (pulls Script.fetch Script.flair 2 s0).2) = 2%nat.
Proof. vm_compute. done. Qed.

(** C6, the claim as it stands fails: a bare page is neither a two-element
    list nor a dict, and the refill that receives it raises nothing; the pull
    hands out its first item. *)
Lemma protocol_violation_counterexample :
  let r := Script.page ["a"] None in
  let s0 := __init__ ∅ [Ok r] "/r/x/new" None None in
  (∀ x y, r ≠ PyList [x; y]) ∧
  Py.is_dict r = false ∧
  Script.fetch (world s0) (url (self s0)) (deref (heap s0) (params (self s0)))
    = ([], Ok r) ∧
  ¬ (∃ e, (_next_batch Script.fetch Script.flair s0).1 = Raise e) ∧
  (__next__ Script.fetch Script.flair s0).1 = Ok (PyObject "a").
Proof.
  intros r s0. split; [done|]. split; [done|]. split; [done|].
  split; [|by vm_compute].
  intros [e He]. vm_compute in He. discriminate.
Qed.

(** C8, the claim as it stands fails: after the only item of a one-item page
    has been handed out, the page is still the current page and the index is
    1, which is its length and not one of its positions. *)
Lemma index_validity_counterexample :
  ¬ index_valid
      (self (pulls Script.fetch Script.flair 1
               (__init__ ∅ [Ok (Script.page ["a"] None)] "/r/x/new" None None)).2).
Proof.
  intros [H|(i & n & Hi & Hn & Hlt)].
  - vm_compute in H. discriminate.
  - vm_compute in Hi, Hn. simplify_eq. lia.
Qed.

(** Inertness, on a generator whose limit of 1 has been used up. *)
Lemma terminal_states_are_inert_witness :
  let s1 := (__next__ Script.fetch Script.flair
               (__init__ ∅ [Ok (Script.page ["a"; "b"] (Some "t3_b"))]
                         "/r/x/new" (Some 1) None)).2 in
  (limit_reached (self s1) = true ∨
   (_exhausted (self s1) = true ∧ needs_batch (self s1) = Ok true)) ∧
  pulls Script.fetch Script.flair 4 s1 = (replicate 4 (Raise StopIteration), s1).
Proof.
  intros s1.
  assert (limit_reached (self s1) = true ∨
          (_exhausted (self s1) = true ∧ needs_batch (self s1) = Ok true)) as H
    by (left; vm_compute; reflexivity).
  split; [exact H|].
  exact (terminal_states_are_inert Script.fetch Script.flair s1 4 H).
Defined.

(** The last page, on a listing of one page of two items. *)
Lemma last_page_ends_listing_witness :
  let page := MkListing [PyObject "a"; PyObject "b"] None in
  let s0 := __init__ ∅ [Ok (PyListing page)] "/r/x/new" None None in
  needs_batch (self s0) = Ok true ∧
  children page ≠ [] ∧
  (pulls Script.fetch Script.flair (length (children page) + 3) s0).1
    = (Ok <$> children page) ++ replicate 3 (Raise StopIteration) ∧
  calls (pulls Script.fetch Script.flair (length (children page) + 3) s0).2
    = calls s0 ++ [(url (self s0), deref (heap s0) (params (self s0)))] ∧
  heap (pulls Script.fetch Script.flair (length (children page) + 3) s0).2 = heap s0.
Proof.
  intros page s0.
  split; [reflexivity|]. split; [discriminate|].
  apply (last_page_ends_listing Script.fetch Script.flair s0 [] (PyListing page) page 3).
  - reflexivity.
  - reflexivity.
  - reflexivity.
  - reflexivity.
  - discriminate.
  - left. reflexivity.
  - intros N HN. discriminate HN.
Defined.

(** The cursor of the first page, in the second request. *)
Lemma cursor_sent_with_next_request_witness :
  let page := MkListing [PyObject "a"; PyObject "b"] (Some "t3_b") in
  let s0 := __init__ ∅ [Ok (PyListing page); Ok (Script.page ["c"] None)]
              "/r/x/new" None None in
  needs_batch (self s0) = Ok true ∧
  deref (heap s0) (params (self s0)) !! "after" ≠ Some (PStr "t3_b") ∧
  take (length (children page))
       (pulls Script.fetch Script.flair (length (children page) + 1) s0).1
    = Ok <$> children page ∧
  calls (pulls Script.fetch Script.flair (length (children page) + 1) s0).2
    = calls s0 ++ [(url (self s0), deref (heap s0) (params (self s0)));
                   (url (self s0),
                    <["after" := PStr "t3_b"]> (deref (heap s0) (params (self s0))))].
Proof.
  intros page s0.
  assert (deref (heap s0) (params (self s0)) !! "after" ≠ Some (PStr "t3_b")) as Hold
    by (vm_compute; discriminate).
  split; [reflexivity|]. split; [exact Hold|].
  apply (cursor_sent_with_next_request Script.fetch Script.flair s0
           [Ok (Script.page ["c"] None)] (PyListing page) page "t3_b").
  - reflexivity.
  - reflexivity.
  - reflexivity.
  - reflexivity.
  - discriminate.
  - reflexivity.
  - discriminate.
  - exact Hold.
  - intros N HN. discriminate HN.
Defined.

(** The counter, on a server of bare pages. *)
Lemma yielded_counts_items_witness :
  (∀ w u d w' r, Script.fetch_pages w u d = (w', Ok r) → well_shaped r = true) ∧
  let s0 := __init__ ∅ [MkListing [PyObject "a"; PyObject "b"] (Some "t3_b");
                        MkListing [] None]
              "/r/x/new" None None in
  yielded (self (pulls Script.fetch_pages Script.flair 4 s0).2)
    = Z.of_nat (length (items (pulls Script.fetch_pages Script.flair 4 s0).1)).
Proof.
  assert (∀ w u d w' r, Script.fetch_pages w u d = (w', Ok r) → well_shaped r = true)
    as H.
  { intros [|p w] u d w' r; simpl; intros [= <- <-]. reflexivity. }
  split; [exact H|].
  exact (yielded_counts_items Script.fetch_pages Script.flair ∅ _ "/r/x/new" None None 4 H).
Defined.

(** The dict shape, on a flair response of two users. *)
Lemma flair_response_is_wrapped_witness :
  let d : gmap string pyobj := {["users" := PyList [PyObject "u1"; PyObject "u2"]]} in
  let s0 := __init__ ∅ [Ok (PyDict d)] "/r/x/api/flairlist" (Some 5) None in
  needs_batch (self s0) = Ok true ∧
  (1 ≤ 2 ≤ length (children (Script.flair d)))%nat ∧
  (pulls Script.fetch Script.flair 2 s0).1 = Ok <$> take 2 (children (Script.flair d)) ∧
  _listing (self (pulls Script.fetch Script.flair 2 s0).2) = PyListing (Script.flair d) ∧
  _list_index (self (pulls Script.fetch Script.flair 2 s0).2) = Some (Z.of_nat 2) ∧
  calls (pulls Script.fetch Script.flair 2 s0).2
    = calls s0 ++ [(url (self s0), deref (heap s0) (params (self s0)))].
Proof.
  intros d s0.
  assert (1 ≤ 2 ≤ length (children (Script.flair d)))%nat as Hlen
    by (vm_compute; lia).
  split; [reflexivity|]. split; [exact Hlen|].
  apply (flair_response_is_wrapped Script.fetch Script.flair s0 [] d 2).
  - reflexivity.
  - reflexivity.
  - reflexivity.
  - exact Hlen.
  - intros N [= <-]. simpl. lia.
Defined.

(** The short list, on a response of one element. *)
Lemma short_list_raises_index_error_witness :
  let l := [Script.page ["a"] None] in
  let s0 := __init__ ∅ [Ok (PyList l)] "/duplicates/x" None None in
  (length l < 2)%nat ∧
  (__next__ Script.fetch Script.flair s0).1 = Raise IndexError ∧
  _listing (self (__next__ Script.fetch Script.flair s0).2) = PyList l ∧
  _list_index (self (__next__ Script.fetch Script.flair s0).2) = _list_index (self s0) ∧
  _exhausted (self (__next__ Script.fetch Script.flair s0).2) = false ∧
  yielded (self (__next__ Script.fetch Script.flair s0).2) = yielded (self s0) ∧
  heap (__next__ Script.fetch Script.flair s0).2 = heap s0.
Proof.
  intros l s0. split; [simpl; lia|].
  apply (short_list_raises_index_error Script.fetch Script.flair s0 [] l).
  - reflexivity.
  - reflexivity.
  - reflexivity.
  - reflexivity.
  - simpl; lia.
Defined.

(** The wedge, on an empty list as first response. *)
Lemma short_list_wedges_fresh_generator_witness :
  let s0 := __init__ ∅ [Ok (PyList []); Ok (Script.page ["a"] None)]
              "/duplicates/x" (Some 3) None in
  limit_reached (self s0) = false ∧
  (pulls Script.fetch Script.flair (S 3) s0).1
    = Raise IndexError :: replicate 3 (Raise TypeError) ∧
  length (calls (pulls Script.fetch Script.flair (S 3) s0).2) = 1%nat.
Proof.
  intros s0. split; [reflexivity|].
  apply (short_list_wedges_fresh_generator Script.fetch Script.flair ∅
           [Ok (PyList []); Ok (Script.page ["a"] None)] "/duplicates/x" (Some 3) None
           [Ok (Script.page ["a"] None)] [] 3).
  - reflexivity.
  - reflexivity.
  - simpl; lia.
Defined.

(** The empty page, with a cursor on it. *)
Lemma empty_page_stops_witness :
  let page := MkListing [] (Some "t3_z") in
  let s0 := __init__ ∅ [Ok (PyListing page)] "/r/x/new" None None in
  needs_batch (self s0) = Ok true ∧
  (__next__ Script.fetch Script.flair s0).1 = Raise StopIteration ∧
  _exhausted (self (__next__ Script.fetch Script.flair s0).2) = false ∧
  heap (__next__ Script.fetch Script.flair s0).2 = heap s0 ∧
  needs_batch (self (__next__ Script.fetch Script.flair s0).2) = Ok true ∧
  limit_reached (self (__next__ Script.fetch Script.flair s0).2) = false.
Proof.
  intros page s0. split; [reflexivity|].
  apply (empty_page_stops Script.fetch Script.flair s0 [] (PyListing page) page);
    reflexivity.
Defined.

